(** * SoroswapTutorial: the TxMaker client and its helpers

    A shallow embedding of [src/utils.ts] and [src/index.ts].

    - [JS]      the JavaScript built-ins the source calls (IEEE-754 doubles,
                [Number], [toFixed], [parseInt], [substr], typed arrays,
                [encodeURIComponent]), following ECMA-262;
    - [Sdk]     the values of [stellar-sdk] the source builds (accounts,
                operations, envelopes), kept symbolic where the SDK hashes
                or signs;
    - [Async]   promises: an outcome (resolved, rejected, still pending) and
                a world holding the clock and the log of effects;
    - [Utils]   [src/utils.ts];
    - [Index]   the class [TxMaker] of [src/index.ts].

    Strings are sequences of code units below 256. *)

From Stdlib Require Import ZArith List String Ascii Bool Lia.
From Stdlib Require Import Floats.SpecFloat.
Import ListNotations.

Local Open Scope string_scope.
Local Open Scope Z_scope.

(* ===================================================================== *)
(** * JavaScript built-ins *)
(* ===================================================================== *)

Module JS.

(** ** Numbers: IEEE-754 binary64, round to nearest, ties to even *)

Definition float64 := spec_float.

Definition prec : Z := 53.
Definition emax : Z := 1024.

Definition f64_add : float64 -> float64 -> float64 := SFadd prec emax.
Definition f64_sub : float64 -> float64 -> float64 := SFsub prec emax.
Definition f64_mul : float64 -> float64 -> float64 := SFmul prec emax.
Definition f64_div : float64 -> float64 -> float64 := SFdiv prec emax.

(** The double nearest to the integer [n] ([+0] for [0]). *)
Definition f64_of_Z (n : Z) : float64 := binary_normalize prec emax n 0 false.

(** The double nearest to [n / d]: one correctly rounded division of the two
    integers, whatever their size. *)
Definition f64_of_ratio (neg : bool) (n : Z) (d : positive) : float64 :=
  match n with
  | Zpos p => SFdiv prec emax (S754_finite neg p 0) (S754_finite false d 0)
  | _ => S754_zero neg
  end.

(** The double nearest to [m * 10^e], as a decimal literal denotes it. *)
Definition f64_of_decimal (neg : bool) (m : Z) (e : Z) : float64 :=
  match e with
  | Zneg k => f64_of_ratio neg m (Pos.pow 10 k)
  | _ => match m * 10 ^ e with
         | Zpos p => binary_round prec emax neg p 0
         | _ => S754_zero neg
         end
  end.

(** [Math.floor] of a finite double, as the integer it is; [None] for NaN
    and the infinities, which [Math.floor] gives back as they are. *)
Definition Math_floor (x : float64) : option Z :=
  match x with
  | S754_zero _ => Some 0
  | S754_finite s m e =>
      let n := if s then Zneg m else Zpos m in
      Some match e with
           | Zneg k => n / 2 ^ Zpos k
           | _ => n * 2 ^ e
           end
  | _ => None
  end.

(** The literal [0.1] of the source. *)
Definition lit_0_1 : float64 := f64_of_decimal false 1 (-1).

(** ** Characters *)

Definition code (c : ascii) : Z := Z.of_N (N_of_ascii c).

(** WhiteSpace and LineTerminator code points below 256. *)
Definition isStrWhiteSpaceChar (c : ascii) : bool :=
  let n := code c in
  ((9 <=? n) && (n <=? 13)) || (n =? 32) || (n =? 160).

(** The value of [c] as a digit of radix up to 36, as [parseInt] and the
    numeric literals read it. *)
Definition digitValue (c : ascii) : option Z :=
  let n := code c in
  if (48 <=? n) && (n <=? 57) then Some (n - 48)
  else if (97 <=? n) && (n <=? 122) then Some (n - 87)
  else if (65 <=? n) && (n <=? 90) then Some (n - 55)
  else None.

Definition radixDigit (radix : Z) (c : ascii) : option Z :=
  match digitValue c with
  | Some d => if d <? radix then Some d else None
  | None => None
  end.

Fixpoint trimStart (s : string) : string :=
  match s with
  | String c r => if isStrWhiteSpaceChar c then trimStart r else s
  | EmptyString => EmptyString
  end.

(** [takeDigits radix s acc n]: the longest prefix of [s] made of digits of
    [radix], as (its value on top of [acc], its length on top of [n], the
    rest of [s]). *)
Fixpoint takeDigits (radix : Z) (s : string) (acc : Z) (n : nat)
  : Z * nat * string :=
  match s with
  | String c r =>
      match radixDigit radix c with
      | Some d => takeDigits radix r (acc * radix + d) (S n)
      | None => (acc, n, s)
      end
  | EmptyString => (acc, n, s)
  end.

Fixpoint rev_string (s acc : string) : string :=
  match s with
  | EmptyString => acc
  | String c r => rev_string r (String c acc)
  end.

Definition trimEnd (s : string) : string :=
  rev_string (trimStart (rev_string s EmptyString)) EmptyString.

(** ** [Number(string)]: StringToNumber *)

(** ExponentPart_opt at the end of a literal: [Some e] when [s] is empty
    ([e = 0]) or is a whole exponent part, [None] otherwise. *)
Definition exponentPart (s : string) : option Z :=
  match s with
  | EmptyString => Some 0
  | String c r =>
      if (code c =? 101) || (code c =? 69) then
        let '(neg, ds) :=
          match r with
          | String "-" r' => (true, r')
          | String "+" r' => (false, r')
          | _ => (false, r)
          end in
        match takeDigits 10 ds 0 0 with
        | (_, O, _) => None
        | (v, _, EmptyString) => Some (if neg then - v else v)
        | _ => None
        end
      else None
  end.

(** StrUnsignedDecimalLiteral, without [Infinity]. *)
Definition unsignedDecimal (neg : bool) (s : string) : float64 :=
  let '(ip, ni, r1) := takeDigits 10 s 0 0 in
  match r1 with
  | String "." r2 =>
      let '(m, nf, r3) := takeDigits 10 r2 ip 0 in
      match ni, nf with
      | O, O => S754_nan
      | _, _ =>
          match exponentPart r3 with
          | Some e => f64_of_decimal neg m (e - Z.of_nat nf)
          | None => S754_nan
          end
      end
  | _ =>
      match ni with
      | O => S754_nan
      | _ => match exponentPart r1 with
             | Some e => f64_of_decimal neg ip e
             | None => S754_nan
             end
      end
  end.

Definition strDecimalLiteral (s : string) : float64 :=
  let '(neg, u) :=
    match s with
    | String "-" r => (true, r)
    | String "+" r => (false, r)
    | _ => (false, s)
    end in
  if String.eqb u "Infinity" then S754_infinity neg
  else unsignedDecimal neg u.

(** NonDecimalIntegerLiteral: [0b], [0o], [0x] and their capitals. *)
Definition nonDecimalRadix (s : string) : option (Z * string) :=
  match s with
  | String "0" (String c r) =>
      let n := code c in
      if (n =? 120) || (n =? 88) then Some (16, r)
      else if (n =? 111) || (n =? 79) then Some (8, r)
      else if (n =? 98) || (n =? 66) then Some (2, r)
      else None
  | _ => None
  end.

Definition Number (str : string) : float64 :=
  let s := trimEnd (trimStart str) in
  match s with
  | EmptyString => S754_zero false
  | _ =>
      match nonDecimalRadix s with
      | Some (radix, ds) =>
          match takeDigits radix ds 0 0 with
          | (_, O, _) => S754_nan
          | (v, _, EmptyString) => f64_of_Z v
          | _ => S754_nan
          end
      | None => strDecimalLiteral s
      end
  end.

(** ** [Number.prototype.toFixed] *)

(** The decimal digits of [n >= 0], most significant first. *)
Fixpoint digitsOf (fuel : nat) (n : Z) (acc : string) : string :=
  match fuel with
  | O => acc
  | S f =>
      let acc' := String (ascii_of_N (Z.to_N (48 + n mod 10))) acc in
      if n <? 10 then acc' else digitsOf f (n / 10) acc'
  end.

Definition decimalString (n : Z) : string :=
  digitsOf (S (Z.to_nat (Z.log2 n))) n EmptyString.

Fixpoint zeros (k : nat) : string :=
  match k with
  | O => EmptyString
  | S k' => String "0" (zeros k')
  end.

(** What [toFixed] returns: the fixed-point text, or, from [10^21] on, the
    text of Number::toString, whose digits ECMA-262 leaves in part to the
    implementation. *)
Inductive NumberText :=
| FixedText (s : string)
| ToStringOf (x : float64).

(** The integer [n] for which [n / 10^f - m * 2^e] is closest to zero, the
    larger one of two. *)
Definition nearestScaled (f : nat) (m : positive) (e : Z) : Z :=
  let scaled := Zpos m * 10 ^ Z.of_nat f in
  match e with
  | Zneg k => (2 * scaled + 2 ^ Zpos k) / 2 ^ (Zpos k + 1)
  | _ => scaled * 2 ^ e
  end.

(** Steps 8 to 10 of toFixed for the integer [n]: pad to [f + 1] digits and
    put the point before the last [f]. *)
Definition fixedDigits (f : nat) (n : Z) : string :=
  let m := decimalString n in
  match f with
  | O => m
  | _ =>
      let k := String.length m in
      let m' := if Nat.leb k f then zeros (S f - k) ++ m else m in
      let k' := String.length m' in
      substring 0 (k' - f) m' ++ "." ++ substring (k' - f) f m'
  end.

(** [m * 2^e >= 10^21]. *)
Definition atLeast1e21 (m : positive) (e : Z) : bool :=
  match e with
  | Zneg k => 10 ^ 21 * 2 ^ Zpos k <=? Zpos m
  | _ => 10 ^ 21 <=? Zpos m * 2 ^ e
  end.

Definition toFixed (x : float64) (fractionDigits : nat) : NumberText :=
  match x with
  | S754_nan => FixedText "NaN"
  | S754_infinity false => FixedText "Infinity"
  | S754_infinity true => FixedText "-Infinity"
  | S754_zero _ => FixedText (fixedDigits fractionDigits 0)
  | S754_finite s m e =>
      if atLeast1e21 m e then ToStringOf x
      else
        FixedText ((if s then "-" else "")
                   ++ fixedDigits fractionDigits (nearestScaled fractionDigits m e))
  end.

(** ** [parseInt(string, radix)] *)

(** The integer [parseInt] reads, [None] for NaN. The result is the exact
    integer: the source reads at most two digits at a time, far below the
    point where a double rounds, and stores the result in a typed array,
    where [-0] and [+0] are the same byte. *)
Definition parseInt (inputString : string) (radix : Z) : option Z :=
  let trimmed := trimStart inputString in
  let '(sign, unsigned) :=
    match trimmed with
    | String "-" r => (-1, r)
    | String "+" r => (1, r)
    | _ => (1, trimmed)
    end in
  if (radix =? 0) || ((2 <=? radix) && (radix <=? 36)) then
    let stripPrefix := (radix =? 0) || (radix =? 16) in
    let '(R, digits) :=
      match unsigned with
      | String "0" (String c r) =>
          if stripPrefix && ((code c =? 120) || (code c =? 88)) then (16, r)
          else (if radix =? 0 then 10 else radix, unsigned)
      | _ => (if radix =? 0 then 10 else radix, unsigned)
      end in
    match takeDigits R digits 0 0 with
    | (_, O, _) => None
    | (mathInt, _, _) => Some (sign * mathInt)
    end
  else None.

(** ** [String.prototype.substr] for a start and a length that are natural
    numbers *)
Definition substr (s : string) (start length : nat) : string :=
  substring start length s.

(** ** [Uint8Array] *)

Definition Uint8Array := list Z.

(** [new Uint8Array(n)]: [n] zero bytes. *)
Definition new_Uint8Array (n : nat) : Uint8Array := repeat 0 n.

(** ToUint8 of what [parseInt] returned. *)
Definition ToUint8 (v : option Z) : Z :=
  match v with
  | Some n => n mod 256
  | None => 0
  end.

Fixpoint set_index (a : Uint8Array) (i : nat) (b : Z) : Uint8Array :=
  match a, i with
  | [], _ => []
  | _ :: r, O => b :: r
  | x :: r, S i' => x :: set_index r i' b
  end.

(** [a[i] = v]: a store outside the array is ignored. *)
Definition store (a : Uint8Array) (i : nat) (v : option Z) : Uint8Array :=
  set_index a i (ToUint8 v).

(** ** [encodeURIComponent] *)

Definition upperHexDigit (d : Z) : ascii :=
  ascii_of_N (Z.to_N (if d <? 10 then 48 + d else 55 + d)).

Definition percentByte (b : Z) : string :=
  String "%" (String (upperHexDigit (b / 16)) (String (upperHexDigit (b mod 16)) EmptyString)).

(** The characters [encodeURIComponent] leaves as they are. *)
Definition uriUnreserved (c : ascii) : bool :=
  let n := code c in
  ((48 <=? n) && (n <=? 57)) || ((65 <=? n) && (n <=? 90))
  || ((97 <=? n) && (n <=? 122))
  || (n =? 45) || (n =? 95) || (n =? 46) || (n =? 33) || (n =? 126)
  || (n =? 42) || (n =? 39) || (n =? 40) || (n =? 41).

(** Every other code unit is escaped through its UTF-8 bytes: one byte below
    128, two from 128 to 255. *)
Fixpoint encodeURIComponent (s : string) : string :=
  match s with
  | EmptyString => EmptyString
  | String c r =>
      let n := code c in
      (if uriUnreserved c then String c EmptyString
       else if n <? 128 then percentByte n
       else percentByte (192 + n / 64) ++ percentByte (128 + n mod 64))
      ++ encodeURIComponent r
  end.

End JS.

(* ===================================================================== *)
(** * Thrown values *)
(* ===================================================================== *)

Module Exn.

(** [ApiErrorResponse] of [types.ts]. *)
Record ResultCodes := {
  operations : list string;
  transaction : string
}.

(** [result_codes] is [extras.result_codes] when the response data, its
    [extras] and the codes are all there. *)
Record ApiErrorResponse := {
  result_codes : option ResultCodes
}.

(** A thrown value. [response] is [error.response.data] of an axios error. *)
Record JsError := {
  message : string;
  isAxiosError : bool;
  response : option ApiErrorResponse
}.

(** [new Error(message)]. *)
Definition Error (msg : string) : JsError :=
  {| message := msg; isAxiosError := false; response := None |}.

(** What a call that may throw, or a promise that may reject, gives. *)
Inductive Result (A : Type) :=
| Ok (a : A)
| Throw (e : JsError).
Arguments Ok {A} a.
Arguments Throw {A} e.

End Exn.

Import JS Exn.

(* ===================================================================== *)
(** * The values of stellar-sdk *)
(* ===================================================================== *)

(** The SDK is a dependency of the repository: its hashing, signing and XDR
    encoding stay symbolic, and so does its validation of the arguments of
    an operation. The envelope follows what [TransactionBuilder] documents:
    [fee] is the base fee for each operation, [setTimeout(s)] bounds the
    envelope by the current time in seconds plus [s], [build] takes the next
    sequence number of the source account. *)
Module Sdk.

Definition Networks_TESTNET : string := "Test SDF Network ; September 2015".
Definition Networks_STANDALONE : string := "Standalone Network ; February 2017".

(** [sdk.BASE_FEE], in stroops. *)
Definition BASE_FEE : Z := 100.

(** [Keypair.fromSecret(secret)]. *)
Record Keypair := { secret : string }.
Definition Keypair_fromSecret (s : string) : Keypair := {| secret := s |}.

Record Account := {
  accountId : string;
  sequence : Z
}.

Inductive Asset :=
| Native
| Credit (code issuer : string).

Record LiquidityPoolAsset := {
  assetA : Asset;
  assetB : Asset;
  poolFee : Z
}.

(** A pool identifier: a hex string the caller gives, or the hex of the hash
    the SDK derives from the pool's parameters under the constant-product
    fee model. *)
Inductive PoolId :=
| PoolIdHex (hex : string)
| PoolIdOfParameters (feeModel : string) (parameters : LiquidityPoolAsset).

#[warnings="-register-all"]
Inductive ScVal :=
| ScvAddress (address : string)
| ScvI128 (x : float64)
| ScvU64 (n : Z)
| ScvVec (items : list ScVal).

Inductive Operation :=
| OpPayment (amount : string) (asset : Asset) (destination : string)
| OpLiquidityPoolDeposit (liquidityPoolId : PoolId) (maxAmountA maxAmountB : string)
    (minPrice maxPrice : NumberText)
| OpLiquidityPoolWithdraw (liquidityPoolId : PoolId) (amount minAmountA minAmountB : string)
| OpInvokeContractFunction (contract : string) (function : string) (args : list ScVal).

(** [new sdk.Contract(address).call(method, ...params)]. *)
Definition Contract_call (address : string) (method : string) (params : list ScVal)
  : Operation :=
  OpInvokeContractFunction address method params.

Record TimeBounds := {
  minTime : Z;
  maxTime : Z
}.

Record Transaction := {
  tx_source : string;
  tx_sequence : Z;
  tx_fee : Z;
  tx_operations : list Operation;
  tx_timeBounds : TimeBounds;
  tx_networkPassphrase : string;
  tx_signatures : list Keypair
}.

Record TransactionBuilder := {
  tb_source : Account;
  tb_fee : Z;
  tb_networkPassphrase : string;
  tb_operations : list Operation;
  tb_timebounds : option TimeBounds
}.

(** [new sdk.TransactionBuilder(source, {fee, networkPassphrase})]. *)
Definition new_TransactionBuilder (source : Account) (fee : Z)
    (networkPassphrase : string) : TransactionBuilder :=
  {| tb_source := source; tb_fee := fee;
     tb_networkPassphrase := networkPassphrase;
     tb_operations := []; tb_timebounds := None |}.

Definition addOperation (tb : TransactionBuilder) (op : Operation)
  : TransactionBuilder :=
  {| tb_source := tb_source tb; tb_fee := tb_fee tb;
     tb_networkPassphrase := tb_networkPassphrase tb;
     tb_operations := tb_operations tb ++ [op];
     tb_timebounds := tb_timebounds tb |}.

(** [setTimeout(seconds)] at the time [nowMs] of [Date.now()]. *)
Definition setTimeout (tb : TransactionBuilder) (seconds : Z) (nowMs : Z)
  : TransactionBuilder :=
  {| tb_source := tb_source tb; tb_fee := tb_fee tb;
     tb_networkPassphrase := tb_networkPassphrase tb;
     tb_operations := tb_operations tb;
     tb_timebounds := Some {| minTime := 0; maxTime := nowMs / 1000 + seconds |} |}.

(** [build()]: the fee of the envelope is the base fee times the number of
    operations; a builder with no time bounds refuses to build. *)
Definition build (tb : TransactionBuilder) : Result Transaction :=
  match tb_timebounds tb with
  | None =>
      Throw (Error "TimeBounds has to be set or you must call setTimeout(TimeoutInfinite).")
  | Some bounds =>
      Ok {| tx_source := accountId (tb_source tb);
            tx_sequence := sequence (tb_source tb) + 1;
            tx_fee := tb_fee tb * Z.of_nat (List.length (tb_operations tb));
            tx_operations := tb_operations tb;
            tx_timeBounds := bounds;
            tx_networkPassphrase := tb_networkPassphrase tb;
            tx_signatures := [] |}
  end.

(** [tx.sign(keypair)]: one more signature on the envelope. *)
Definition sign (tx : Transaction) (signer : Keypair) : Transaction :=
  {| tx_source := tx_source tx; tx_sequence := tx_sequence tx;
     tx_fee := tx_fee tx; tx_operations := tx_operations tx;
     tx_timeBounds := tx_timeBounds tx;
     tx_networkPassphrase := tx_networkPassphrase tx;
     tx_signatures := tx_signatures tx ++ [signer] |}.

(** [SorobanRpc.Api.GetTransactionStatus]. *)
Inductive GetTransactionStatus := SUCCESS | NOT_FOUND | FAILED.

Definition status_eqb (a b : GetTransactionStatus) : bool :=
  match a, b with
  | SUCCESS, SUCCESS | NOT_FOUND, NOT_FOUND | FAILED, FAILED => true
  | _, _ => false
  end.

(** What [getTransaction] resolves to; [resultXdr] stands for the metadata
    that comes with the status. *)
Record GetTransactionResponse := {
  status : GetTransactionStatus;
  resultXdr : string
}.

(** What [submitTransaction] and [sendTransaction] resolve to. *)
Record SubmitResponse := { hash : string }.

(** A Horizon server, by what its calls answer. *)
Record HorizonServer := {
  horizon_loadAccount : string -> Result Account;
  horizon_submitTransaction : Transaction -> Result SubmitResponse
}.

(** A Soroban RPC server, by what its calls answer; [soroban_getTransaction
    h k] is the answer to the query for [h] that comes after [k] earlier
    queries for [h]. *)
Record SorobanServer := {
  soroban_getAccount : string -> Result Account;
  soroban_prepareTransaction : Transaction -> Result Transaction;
  soroban_sendTransaction : Transaction -> Result SubmitResponse;
  soroban_getTransaction : string -> nat -> Result GetTransactionResponse
}.

(** [asset.isNative()], [asset.code] and [asset.issuer]: the native asset
    has the code XLM and no issuer. *)
Definition Asset_isNative (asset : Asset) : bool :=
  match asset with
  | Native => true
  | Credit _ _ => false
  end.

Definition Asset_code (asset : Asset) : string :=
  match asset with
  | Native => "XLM"
  | Credit code _ => code
  end.

Definition Asset_issuer (asset : Asset) : option string :=
  match asset with
  | Native => None
  | Credit _ issuer => Some issuer
  end.

(** A line of [account.balances] of Horizon, by its [asset_type]: [native],
    [liquidity_pool_shares], or a credit type, which alone carries
    [asset_code] and [asset_issuer]. *)
Inductive BalanceLine :=
| BalanceNative (balance : string)
| BalancePoolShares (balance : string) (liquidity_pool_id : string)
| BalanceCredit (balance asset_code asset_issuer : string).

(** [line.balance]. *)
Definition balanceOf (line : BalanceLine) : string :=
  match line with
  | BalanceNative balance => balance
  | BalancePoolShares balance _ => balance
  | BalanceCredit balance _ _ => balance
  end.

(** [Horizon.AccountResponse], as far as the source reads it. *)
Record AccountResponse := { balances : list BalanceLine }.

End Sdk.

Import Sdk.

(* ===================================================================== *)
(** * types.ts *)
(* ===================================================================== *)

Record TestAccount := {
  privateKey : string;
  publicKey : string
}.

Module paymentArgs.
Record t := {
  amount : string;
  asset : Asset;
  from : TestAccount;
  to : string
}.
End paymentArgs.

Module liquidityPoolWithdrawArgs.
Record t := {
  amount : string;
  minAmountA : string;
  minAmountB : string;
  poolAsset : LiquidityPoolAsset;
  source : TestAccount
}.
End liquidityPoolWithdrawArgs.

Module mintTokensArgs.
Record t := {
  amount : string;
  contractId : string;
  destination : string;
  source : TestAccount
}.
End mintTokensArgs.

Module addLiquiditySoroswapArgs.
Record t := {
  amountADesired : string;
  amountAMin : string;
  amountBDesired : string;
  amountBMin : string;
  source : TestAccount;
  to : TestAccount;
  tokenA : string;
  tokenB : string
}.
End addLiquiditySoroswapArgs.

Module removeLiquiditySoroswapArgs.
Record t := {
  amountAMin : string;
  amountBMin : string;
  liquidity : string;
  source : TestAccount;
  to : TestAccount;
  tokenA : string;
  tokenB : string
}.
End removeLiquiditySoroswapArgs.

(** The argument of [swapExactTokensForTokensSoroswap], written inline in
    [index.ts]. *)
Module swapArgs.
Record t := {
  source : TestAccount;
  amountIn : string;
  amountOutMin : string;
  path : list string;
  to : TestAccount
}.
End swapArgs.

(* ===================================================================== *)
(** * Promises and effects *)
(* ===================================================================== *)

Module Async.

(** The body of a faucet answer: [successful] is the truthiness of the field
    and [detail] the field when it is a string. *)
Record FaucetJson := {
  successful : bool;
  detail : option string
}.

(** What [fetch] resolves to: a response whose [json()] may reject. *)
Record FetchResponse := { json : Result FaucetJson }.

(** A record of the router discovery endpoint. *)
Record RouterRecord := {
  network : string;
  router_id : string;
  router_address : string
}.

(** [fetch] and [axios.get], by what they answer for a URL; [axios.get]
    gives the [data] of the response. *)
Definition Fetch := string -> Result FetchResponse.
Definition Axios := string -> Result (list RouterRecord).

(** An argument of [console.log] and [console.error]. *)
Inductive LogArg :=
| LStr (s : string)
| LError (e : JsError)
| LCodes (c : ResultCodes)
| LJson (j : FaucetJson).

(** The effects a call leaves behind, in order. *)
Inductive Event :=
| EvAxiosGet (url : string)
| EvFetch (url : string)
| EvLoadAccount (publicKey : string)
| EvSubmitTransaction (tx : Transaction)
| EvGetAccount (publicKey : string)
| EvPrepareTransaction (tx : Transaction)
| EvSendTransaction (tx : Transaction)
| EvGetTransaction (hash : string)
| EvSleep (ms : Z)
| EvConsoleLog (args : list LogArg)
| EvConsoleError (args : list LogArg).

(** The events that cross the network. *)
Definition isNetworkIO (ev : Event) : bool :=
  match ev with
  | EvSleep _ | EvConsoleLog _ | EvConsoleError _ => false
  | _ => true
  end.

(** The clock of [Date.now()], in milliseconds, and the effects so far. *)
Record World := {
  now : Z;
  log : list Event
}.

(** A promise, once run: resolved, rejected, or still pending when the fuel
    of the run is spent. A synchronous call is a promise that is never
    pending. *)
Inductive Outcome (A : Type) :=
| Resolved (a : A)
| Rejected (e : JsError)
| Pending.
Arguments Resolved {A} a.
Arguments Rejected {A} e.
Arguments Pending {A}.

Definition Js (A : Type) : Type := World -> Outcome A * World.

Definition ret {A} (a : A) : Js A := fun w => (Resolved a, w).

(** [throw e], and the rejection of a promise. *)
Definition throw {A} (e : JsError) : Js A := fun w => (Rejected e, w).

(** A promise that does not settle within the run. *)
Definition pending {A} : Js A := fun w => (Pending, w).

(** [const x = await c; k x]. *)
Definition bind {A B} (c : Js A) (k : A -> Js B) : Js B :=
  fun w =>
    match c w with
    | (Resolved a, w') => k a w'
    | (Rejected e, w') => (Rejected e, w')
    | (Pending, w') => (Pending, w')
    end.

(** [try { c } catch (error) { handler error }]. *)
Definition tryCatch {A} (c : Js A) (handler : JsError -> Js A) : Js A :=
  fun w =>
    match c w with
    | (Rejected e, w') => handler e w'
    | r => r
    end.

Definition fromResult {A} (r : Result A) : Js A :=
  match r with
  | Ok a => ret a
  | Throw e => throw e
  end.

Definition perform (ev : Event) : Js unit :=
  fun w => (Resolved tt, {| now := now w; log := log w ++ [ev] |}).

(** [Date.now()]. *)
Definition Date_now : Js Z := fun w => (Resolved (now w), w).

(** [await new Promise((resolve) => setTimeout(resolve, ms))]: the clock
    moves on by the interval. *)
Definition sleep (ms : Z) : Js unit :=
  fun w => (Resolved tt, {| now := now w + ms; log := log w ++ [EvSleep ms] |}).

Definition console_log (args : list LogArg) : Js unit := perform (EvConsoleLog args).
Definition console_error (args : list LogArg) : Js unit := perform (EvConsoleError args).

Declare Scope js_scope.
Delimit Scope js_scope with js.
Notation "x <- c ;; k" := (bind c (fun x => k))
  (at level 61, c at next level, right associativity) : js_scope.
Notation "c ;; k" := (bind c (fun _ => k))
  (at level 61, right associativity) : js_scope.
Local Open Scope js_scope.

(** The number of queries for [h] among the effects so far. *)
Fixpoint queriesFor (h : string) (l : list Event) : nat :=
  match l with
  | [] => O
  | EvGetTransaction h' :: r =>
      if String.eqb h h' then S (queriesFor h r) else queriesFor h r
  | _ :: r => queriesFor h r
  end.

(** The calls on the servers. *)

Definition axios_get (axios : Axios) (url : string) : Js (list RouterRecord) :=
  perform (EvAxiosGet url) ;; fromResult (axios url).

Definition fetch_ (fetch : Fetch) (url : string) : Js FetchResponse :=
  perform (EvFetch url) ;; fromResult (fetch url).

Definition loadAccount (server : HorizonServer) (publicKey : string) : Js Account :=
  perform (EvLoadAccount publicKey) ;; fromResult (horizon_loadAccount server publicKey).

Definition submitTransaction (server : HorizonServer) (tx : Transaction)
  : Js SubmitResponse :=
  perform (EvSubmitTransaction tx) ;; fromResult (horizon_submitTransaction server tx).

Definition getAccount (server : SorobanServer) (publicKey : string) : Js Account :=
  perform (EvGetAccount publicKey) ;; fromResult (soroban_getAccount server publicKey).

Definition prepareTransaction (server : SorobanServer) (tx : Transaction)
  : Js Transaction :=
  perform (EvPrepareTransaction tx) ;; fromResult (soroban_prepareTransaction server tx).

Definition sendTransaction (server : SorobanServer) (tx : Transaction)
  : Js SubmitResponse :=
  perform (EvSendTransaction tx) ;; fromResult (soroban_sendTransaction server tx).

Definition getTransaction (server : SorobanServer) (hash : string)
  : Js GetTransactionResponse :=
  fun w =>
    (perform (EvGetTransaction hash) ;;
     fromResult (soroban_getTransaction server hash (queriesFor hash (log w)))) w.

End Async.

Import Async.
Local Open Scope js_scope.

(* ===================================================================== *)
(** * src/utils.ts *)
(* ===================================================================== *)

Module Utils.

(** The TypeError of reading a property of [undefined]. *)
Definition TypeError_undefined (property : string) : JsError :=
  Error ("Cannot read properties of undefined (reading '" ++ property ++ "')").

Definition getRouterContractAddress (axios : Axios) (uri network_ : string)
  : Js string :=
  found <- tryCatch
    (data <- axios_get axios (uri ++ "/api/router") ;;
     match find (fun router => String.eqb (network router) network_) data with
     | Some router => ret (Some (router_address router))
     | None => throw (TypeError_undefined "router_address")
     end)
    (fun error =>
       console_log [LStr "error:"; LError error] ;; ret None) ;;
  match found with
  | Some address => ret address
  | None => ret "error"
  end.

Definition getNetworkPassphrase (network_ : string) : Result string :=
  if String.eqb network_ "testnet" then Ok Networks_TESTNET
  else if String.eqb network_ "standalone" then Ok Networks_STANDALONE
  else Throw (Error "Unsupported network. Only standalone and testnet are supported.").

Definition getLiquidityPoolId (liquidityPoolAsset : LiquidityPoolAsset) : PoolId :=
  PoolIdOfParameters "constant_product" liquidityPoolAsset.

Definition showErrorResultCodes (error : JsError) : Js unit :=
  match isAxiosError error, response error with
  | true, Some apiError =>
      match result_codes apiError with
      | Some codes => console_log [LStr "Result Codes:"; LCodes codes]
      | None =>
          console_log [LStr "error:"; LError error] ;;
          console_log [LStr "Error does not have the expected format"]
      end
  | _, _ => console_error [LStr "Non-API error occurred:"; LError error]
  end.

(** The loop of [waitForConfirmation]; [fuel] bounds the number of queries
    of one run, and a run that spends it leaves the promise pending. *)
Fixpoint waitForConfirmation (fuel : nat) (hash : string) (server : SorobanServer)
  : Js GetTransactionResponse :=
  match fuel with
  | O => pending
  | S fuel' =>
      confirmation <- getTransaction server hash ;;
      if negb (status_eqb (status confirmation) NOT_FOUND) then ret confirmation
      else sleep 1000 ;; waitForConfirmation fuel' hash server
  end.

(** [Date.now()] is a whole number of milliseconds below [2^53], on which
    the additions and the division by 1000 followed by [Math.floor] are
    exact. *)
Definition getCurrentTimePlusOneHour : Js Z :=
  now <- Date_now ;;
  let oneHourLater := now + 36000000 in
  let oneHourLaterSeconds := oneHourLater / 1000 in
  ret oneHourLaterSeconds.

(** The same computation in doubles, from the time [nowMs] of the clock. *)
Definition getCurrentTimePlusOneHour_doubles (nowMs : Z) : option Z :=
  let now := f64_of_Z nowMs in
  let oneHourLater := f64_add now (f64_of_Z 36000000) in
  Math_floor (f64_div oneHourLater (f64_of_Z 1000)).

Definition hexToByte (hexString : string) : Result Uint8Array :=
  if negb (Nat.eqb (Nat.modulo (String.length hexString) 2) 0) then
    Throw (Error "Must have an even number of hex digits to convert to bytes")
  else
    let numBytes := Nat.div (String.length hexString) 2 in
    let byteArray := new_Uint8Array numBytes in
    Ok (fold_left
          (fun byteArray i =>
             store byteArray i (parseInt (substr hexString (i * 2) 2) 16))
          (seq 0 numBytes) byteArray).

(** [buildTx] of [utils.ts]: the builder of the class, with the passphrase
    of the standalone network written in. *)
Definition buildTx (source : Account) (signer : Keypair) (ops : list Operation)
  : Js Transaction :=
  let tx := new_TransactionBuilder source BASE_FEE Networks_STANDALONE in
  let tx := fold_left addOperation ops tx in
  nowMs <- Date_now ;;
  txBuilt <- fromResult (build (setTimeout tx 30 nowMs)) ;;
  ret (sign txBuilt signer).

Definition getXLMAsset : Asset := Native.

(** [Array.prototype.find] with a callback that has effects: the callback
    runs on the elements in order, up to the first it accepts. *)
Fixpoint Array_find {A} (callback : A -> Js bool) (l : list A) : Js (option A) :=
  match l with
  | [] => ret None
  | x :: r =>
      found <- callback x ;;
      if found then ret (Some x) else Array_find callback r
  end.

(** The callback of [getAssetBalance]. A credit line matches when its code
    and its issuer are those of the asset; the issuer of the native asset
    is [undefined], which no issuer of a line equals. *)
Definition balanceMatches (asset : Asset) (balance : BalanceLine) : Js bool :=
  match balance with
  | BalanceNative _ => ret (Asset_isNative asset)
  | BalancePoolShares _ _ =>
      console_log [LStr "Liquidity pool shares not supported yet"] ;;
      ret false
  | BalanceCredit _ asset_code asset_issuer =>
      ret (String.eqb asset_code (Asset_code asset)
           && match Asset_issuer asset with
              | Some issuer => String.eqb asset_issuer issuer
              | None => false
              end)
  end.

(** [balance?.balance]: [None] is [undefined]. *)
Definition getAssetBalance (account : AccountResponse) (asset : Asset)
  : Js (option string) :=
  balance <- Array_find (balanceMatches asset) (balances account) ;;
  ret (option_map balanceOf balance).

End Utils.

Import Utils.

(* ===================================================================== *)
(** * src/index.ts: the class TxMaker *)
(* ===================================================================== *)

Module Index.

(** The fields of a [TxMaker]; the two servers are the objects the
    constructor builds from the URLs it is given. *)
Record TxMaker := {
  horizonServer : HorizonServer;
  sorobanServer : SorobanServer;
  friendbotURI : string;
  routerContractAddress : string;
  network : string
}.

(** What a method of the facade resolves to: the confirmation, the object
    [{ status, error }], or [undefined] when the body ends without a
    [return]. *)
Inductive FacadeResult :=
| Confirmation (confirmation : GetTransactionResponse)
| ErrorObject (status : string) (error : JsError)
| Undefined.

Definition line_feed : string := String (ascii_of_nat 10) EmptyString.

Definition buildTx (this : TxMaker) (source : Account) (signer : Keypair)
    (ops : list Operation) : Js Transaction :=
  networkPassphrase <- fromResult (getNetworkPassphrase (network this)) ;;
  let tx := new_TransactionBuilder source BASE_FEE networkPassphrase in
  let tx := fold_left addOperation ops tx in
  nowMs <- Date_now ;;
  txBuilt <- fromResult (build (setTimeout tx 30 nowMs)) ;;
  ret (sign txBuilt signer).

Definition alreadyExists : string :=
  "createAccountAlreadyExist (AAAAAAAAAGT/////AAAAAQAAAAAAAAAA/////AAAAAA=)".

Definition fundAccount (fetch : Fetch) (this : TxMaker) (account : TestAccount)
  : Js unit :=
  tryCatch
    (response <- fetch_ fetch
       (friendbotURI this ++ encodeURIComponent (publicKey account)) ;;
     responseJSON <- fromResult (json response) ;;
     if successful responseJSON then
       console_log [LStr ("SUCCESS! You have a new account :)" ++ line_feed)]
     else
       match detail responseJSON with
       | Some d =>
           if String.eqb d alreadyExists then
             console_log [LStr "Account already exists:"]
           else
             console_error [LStr ("ERROR! :(" ++ line_feed); LJson responseJSON]
       | None =>
           console_error [LStr ("ERROR! :(" ++ line_feed); LJson responseJSON]
       end)
    (fun error =>
       console_error [LStr "ERROR!"; LError error] ;;
       showErrorResultCodes error).

Definition payment (fuel : nat) (this : TxMaker) (args : paymentArgs.t)
  : Js FacadeResult :=
  let sourceKeypair := Keypair_fromSecret (privateKey (paymentArgs.from args)) in
  source <- loadAccount (horizonServer this) (publicKey (paymentArgs.from args)) ;;
  let ops :=
    [OpPayment (paymentArgs.amount args) (paymentArgs.asset args)
       (paymentArgs.to args)] in
  tx <- buildTx this source sourceKeypair ops ;;
  tryCatch
    (submitTransactionResponse <- submitTransaction (horizonServer this) tx ;;
     confirmation <- waitForConfirmation fuel (hash submitTransactionResponse)
                       (sorobanServer this) ;;
     ret (Confirmation confirmation))
    (fun error =>
       console_error [LStr "ERROR!"; LError error] ;;
       showErrorResultCodes error ;;
       ret (ErrorObject "error" error)).

(** The three numbers [liquidityPoolDeposit] computes before it submits. *)
Definition exactPrice (maxReserveA maxReserveB : string) : float64 :=
  f64_div (Number maxReserveA) (Number maxReserveB).

Definition minPrice (maxReserveA maxReserveB : string) : float64 :=
  let exactPrice := exactPrice maxReserveA maxReserveB in
  f64_sub exactPrice (f64_mul exactPrice lit_0_1).

Definition maxPrice (maxReserveA maxReserveB : string) : float64 :=
  let exactPrice := exactPrice maxReserveA maxReserveB in
  f64_add exactPrice (f64_mul exactPrice lit_0_1).

Definition liquidityPoolDeposit (fuel : nat) (this : TxMaker)
    (source : Account) (signer : Keypair) (poolId : string)
    (maxReserveA maxReserveB : string) : Js FacadeResult :=
  let minPrice := minPrice maxReserveA maxReserveB in
  let maxPrice := maxPrice maxReserveA maxReserveB in
  tryCatch
    (tx <- buildTx this source signer
             [OpLiquidityPoolDeposit (PoolIdHex poolId) maxReserveA maxReserveB
                (toFixed minPrice 7) (toFixed maxPrice 7)] ;;
     txRes <- submitTransaction (horizonServer this) tx ;;
     confirmation <- waitForConfirmation fuel (hash txRes) (sorobanServer this) ;;
     ret (Confirmation confirmation))
    (fun error =>
       console_error [LStr "ERROR!"; LError error] ;;
       showErrorResultCodes error ;;
       ret (ErrorObject "error" error)).

Definition liquidityPoolWithdraw (fuel : nat) (this : TxMaker)
    (args : liquidityPoolWithdrawArgs.t) : Js FacadeResult :=
  let ops :=
    OpLiquidityPoolWithdraw
      (getLiquidityPoolId (liquidityPoolWithdrawArgs.poolAsset args))
      (liquidityPoolWithdrawArgs.amount args)
      (liquidityPoolWithdrawArgs.minAmountA args)
      (liquidityPoolWithdrawArgs.minAmountB args) in
  let sourceKeypair :=
    Keypair_fromSecret (privateKey (liquidityPoolWithdrawArgs.source args)) in
  source <- loadAccount (horizonServer this)
              (publicKey (liquidityPoolWithdrawArgs.source args)) ;;
  tx <- buildTx this source sourceKeypair [ops] ;;
  tryCatch
    (submitTransactionResponse <- submitTransaction (horizonServer this) tx ;;
     confirmation <- waitForConfirmation fuel (hash submitTransactionResponse)
                       (sorobanServer this) ;;
     ret (Confirmation confirmation))
    (fun error =>
       console_error [LStr "ERROR!"; LError error] ;;
       showErrorResultCodes error ;;
       ret (ErrorObject "error" error)).

Definition mintTokens (fuel : nat) (this : TxMaker) (args : mintTokensArgs.t)
  : Js FacadeResult :=
  source <- getAccount (sorobanServer this)
              (publicKey (mintTokensArgs.source args)) ;;
  let sourceKeypair := Keypair_fromSecret (privateKey (mintTokensArgs.source args)) in
  let mintTokenArgs :=
    [ScvAddress (mintTokensArgs.destination args);
     ScvI128 (Number (mintTokensArgs.amount args))] in
  let op :=
    OpInvokeContractFunction (mintTokensArgs.contractId args) "mint" mintTokenArgs in
  tx <- buildTx this source sourceKeypair [op] ;;
  preparedTransaction <- prepareTransaction (sorobanServer this) tx ;;
  let preparedTransaction := sign preparedTransaction sourceKeypair in
  tryCatch
    (txRes <- sendTransaction (sorobanServer this) preparedTransaction ;;
     confirmation <- waitForConfirmation fuel (hash txRes) (sorobanServer this) ;;
     ret (Confirmation confirmation))
    (fun error =>
       showErrorResultCodes error ;;
       console_log [LStr "error:"; LError error] ;;
       ret (ErrorObject "error" error)).

(** The arguments of the three calls on the router contract. In the three
    methods that make them, the [catch] logs the error and the body ends
    without a [return]. *)

Definition addLiquidityParams (args : addLiquiditySoroswapArgs.t) (deadline : Z)
  : list ScVal :=
  [ScvAddress (addLiquiditySoroswapArgs.tokenA args);
   ScvAddress (addLiquiditySoroswapArgs.tokenB args);
   ScvI128 (Number (addLiquiditySoroswapArgs.amountADesired args));
   ScvI128 (Number (addLiquiditySoroswapArgs.amountBDesired args));
   ScvI128 (Number (addLiquiditySoroswapArgs.amountAMin args));
   ScvI128 (Number (addLiquiditySoroswapArgs.amountBMin args));
   ScvAddress (publicKey (addLiquiditySoroswapArgs.to args));
   ScvU64 deadline].

Definition removeLiquidityParams (args : removeLiquiditySoroswapArgs.t)
    (deadline : Z) : list ScVal :=
  [ScvAddress (removeLiquiditySoroswapArgs.tokenA args);
   ScvAddress (removeLiquiditySoroswapArgs.tokenB args);
   ScvI128 (Number (removeLiquiditySoroswapArgs.liquidity args));
   ScvI128 (Number (removeLiquiditySoroswapArgs.amountAMin args));
   ScvI128 (Number (removeLiquiditySoroswapArgs.amountBMin args));
   ScvAddress (publicKey (removeLiquiditySoroswapArgs.to args));
   ScvU64 deadline].

Definition swapParams (args : swapArgs.t) (deadline : Z) : list ScVal :=
  let path := map ScvAddress (swapArgs.path args) in
  [ScvI128 (Number (swapArgs.amountIn args));
   ScvI128 (Number (swapArgs.amountOutMin args));
   ScvVec path;
   ScvAddress (publicKey (swapArgs.to args));
   ScvU64 deadline].

Definition addLiquiditySoroswap (fuel : nat) (this : TxMaker)
    (args : addLiquiditySoroswapArgs.t) : Js FacadeResult :=
  account <- getAccount (sorobanServer this)
               (publicKey (addLiquiditySoroswapArgs.source args)) ;;
  let sourceKeypair :=
    Keypair_fromSecret (privateKey (addLiquiditySoroswapArgs.source args)) in
  deadline <- getCurrentTimePlusOneHour ;;
  let scValParams := addLiquidityParams args deadline in
  let op := Contract_call (routerContractAddress this) "add_liquidity" scValParams in
  transaction <- buildTx this account sourceKeypair [op] ;;
  preparedTransaction <- prepareTransaction (sorobanServer this) transaction ;;
  let preparedTransaction := sign preparedTransaction sourceKeypair in
  tryCatch
    (txRes <- sendTransaction (sorobanServer this) preparedTransaction ;;
     confirmation <- waitForConfirmation fuel (hash txRes) (sorobanServer this) ;;
     ret (Confirmation confirmation))
    (fun error =>
       showErrorResultCodes error ;;
       console_error [LError error] ;;
       ret Undefined).

Definition removeLiquiditySoroswap (fuel : nat) (this : TxMaker)
    (args : removeLiquiditySoroswapArgs.t) : Js FacadeResult :=
  source <- getAccount (sorobanServer this)
              (publicKey (removeLiquiditySoroswapArgs.source args)) ;;
  let sourceKeypair :=
    Keypair_fromSecret (privateKey (removeLiquiditySoroswapArgs.source args)) in
  deadline <- getCurrentTimePlusOneHour ;;
  let scValParams := removeLiquidityParams args deadline in
  let op := Contract_call (routerContractAddress this) "remove_liquidity" scValParams in
  transaction <- buildTx this source sourceKeypair [op] ;;
  preparedTransaction <- prepareTransaction (sorobanServer this) transaction ;;
  let preparedTransaction := sign preparedTransaction sourceKeypair in
  tryCatch
    (txRes <- sendTransaction (sorobanServer this) preparedTransaction ;;
     confirmation <- waitForConfirmation fuel (hash txRes) (sorobanServer this) ;;
     ret (Confirmation confirmation))
    (fun error =>
       showErrorResultCodes error ;;
       console_error [LError error] ;;
       ret Undefined).

Definition swapExactTokensForTokensSoroswap (fuel : nat) (this : TxMaker)
    (args : swapArgs.t) : Js FacadeResult :=
  account <- getAccount (sorobanServer this) (publicKey (swapArgs.source args)) ;;
  let sourceKeypair := Keypair_fromSecret (privateKey (swapArgs.source args)) in
  deadline <- getCurrentTimePlusOneHour ;;
  let scValParams := swapParams args deadline in
  let op :=
    Contract_call (routerContractAddress this) "swap_exact_tokens_for_tokens"
      scValParams in
  transaction <- buildTx this account sourceKeypair [op] ;;
  preparedTransaction <- prepareTransaction (sorobanServer this) transaction ;;
  let preparedTransaction := sign preparedTransaction sourceKeypair in
  tryCatch
    (txRes <- sendTransaction (sorobanServer this) preparedTransaction ;;
     confirmation <- waitForConfirmation fuel (hash txRes) (sorobanServer this) ;;
     ret (Confirmation confirmation))
    (fun error =>
       showErrorResultCodes error ;;
       console_error [LError error] ;;
       ret Undefined).

End Index.

Import Index.

(* ===================================================================== *)
(** * Definitions the statements use *)
(* ===================================================================== *)

Local Open Scope list_scope.

(** [w] after the events [evs] and [ms] milliseconds. *)
Definition after (w : World) (ms : Z) (evs : list Event) : World :=
  {| now := now w + ms; log := log w ++ evs |}.

(** The events of [n] rounds of the poller that end in a suspension. *)
Fixpoint pollRounds (hash : string) (n : nat) : list Event :=
  match n with
  | O => []
  | S n' => EvGetTransaction hash :: EvSleep 1000 :: pollRounds hash n'
  end.

Definition isSleep (ev : Event) : bool :=
  match ev with
  | EvSleep _ => true
  | _ => false
  end.

(** The number of suspensions among the events. *)
Definition suspensions (evs : list Event) : nat :=
  List.length (filter isSleep evs).

(** The URL [getRouterContractAddress] asks. *)
Definition routerEndpoint (uri : string) : string := (uri ++ "/api/router")%string.

(** An answer of the tracking service that keeps the poller waiting. *)
Definition interim (r : Result GetTransactionResponse) : bool :=
  match r with
  | Ok confirmation => status_eqb (status confirmation) NOT_FOUND
  | Throw _ => false
  end.

(** ** getNetworkPassphrase *)

Definition unsupportedNetwork : JsError :=
  Error "Unsupported network. Only standalone and testnet are supported.".

(** ** Running promises *)

(** [w] after the events [evs], the clock unmoved. *)
Definition logged (w : World) (evs : list Event) : World :=
  {| now := now w; log := log w ++ evs |}.

(** Runs the monad's operations on a world that is known. *)
Ltac js_run :=
  cbv [bind ret throw fromResult console_log console_error perform logged];
  simpl; rewrite <- ?app_assoc; simpl.

(** ** Effects are only ever added *)

Definition extends (w w' : World) : Prop :=
  exists evs, log w' = log w ++ evs.

Definition appendOnly {A} (c : Js A) : Prop :=
  forall w, extends w (snd (c w)).

(** The lemmas on [appendOnly], and the tactic that applies them. *)
Create HintDb js discriminated.

Ltac append_only := unfold console_log, console_error; auto 20 with js.

(** ** TxMaker.buildTx *)

(** The envelope [buildTx] returns on a supported network. *)
Definition builtEnvelope (passphrase : string) (nowMs : Z) (source : Account)
    (signer : Keypair) (ops : list Operation) : Transaction :=
  {| tx_source := accountId source;
     tx_sequence := sequence source + 1;
     tx_fee := BASE_FEE * Z.of_nat (List.length ops);
     tx_operations := ops;
     tx_timeBounds := {| minTime := 0; maxTime := nowMs / 1000 + 30 |};
     tx_networkPassphrase := passphrase;
     tx_signatures := [signer] |}.

(** ** TxMaker.fundAccount *)

(** The URL [fundAccount] fetches. *)
Definition faucetURL (this : TxMaker) (account : TestAccount) : string :=
  (friendbotURI this ++ encodeURIComponent (publicKey account))%string.

Definition successMessage : string :=
  ("SUCCESS! You have a new account :)" ++ line_feed)%string.

Definition failureMessage : string := ("ERROR! :(" ++ line_feed)%string.

(** ** hexToByte *)

(** The reading of a string of hex digits, stated apart from the code: the
    value of a digit, the byte two digits denote, and the two lower-case
    digits that write a byte. *)

Definition isHexDigit (c : ascii) : bool :=
  match radixDigit 16 c with
  | Some _ => true
  | None => false
  end.

Definition hexValue (c : ascii) : Z :=
  match radixDigit 16 c with
  | Some d => d
  | None => 0
  end.

Fixpoint allHexDigits (s : string) : bool :=
  match s with
  | EmptyString => true
  | String c r => isHexDigit c && allHexDigits r
  end.

Fixpoint hexValues (s : string) : list Z :=
  match s with
  | EmptyString => []
  | String c r => hexValue c :: hexValues r
  end.

Fixpoint bytesOfHex (s : string) : list Z :=
  match s with
  | String a (String b r) => (16 * hexValue a + hexValue b) :: bytesOfHex r
  | _ => []
  end.

Definition lowerHexDigit (d : Z) : ascii :=
  ascii_of_N (Z.to_N (if d <? 10 then 48 + d else 87 + d)).

Fixpoint toHex (bytes : list Z) : string :=
  match bytes with
  | [] => EmptyString
  | b :: r =>
      String (lowerHexDigit (b / 16)) (String (lowerHexDigit (b mod 16)) (toHex r))
  end.

(** A digit or a letter from [a] to [f]. *)
Definition isLowerHexDigit (c : ascii) : bool :=
  let n := code c in
  ((48 <=? n) && (n <=? 57)) || ((97 <=? n) && (n <=? 102)).

Fixpoint allLowerHexDigits (s : string) : bool :=
  match s with
  | EmptyString => true
  | String c r => isLowerHexDigit c && allLowerHexDigits r
  end.

Fixpoint toHexUpper (bytes : list Z) : string :=
  match bytes with
  | [] => EmptyString
  | b :: r =>
      String (upperHexDigit (b / 16))
        (String (upperHexDigit (b mod 16)) (toHexUpper r))
  end.

(** A digit or a letter from [A] to [F]. *)
Definition isUpperHexDigit (c : ascii) : bool :=
  let n := code c in
  ((48 <=? n) && (n <=? 57)) || ((65 <=? n) && (n <=? 70)).

Fixpoint allUpperHexDigits (s : string) : bool :=
  match s with
  | EmptyString => true
  | String c r => isUpperHexDigit c && allUpperHexDigits r
  end.

(** The two characters that write the byte [b] are hex digits and denote
    [b]. *)
Definition writtenByteReadsBack (b : Z) : bool :=
  isHexDigit (lowerHexDigit (b / 16))
  && isHexDigit (lowerHexDigit (b mod 16))
  && (16 * hexValue (lowerHexDigit (b / 16)) + hexValue (lowerHexDigit (b mod 16))
      =? b).

Definition hexChars : list ascii :=
  list_ascii_of_string "0123456789abcdefABCDEF".

Definition oddLength : JsError :=
  Error "Must have an even number of hex digits to convert to bytes".

(** ** The deadline of the router calls *)

(** The deadline computed at the time [t] of [Date.now()]. *)
Definition deadlineAt (t : Z) : Z := (t + 36000000) / 1000.

(** Times of the clock from the epoch to the last time value of a [Date]. *)
Definition sampleTimes : list Z :=
  [0; 1; 999; 1000; 1700000000123; 1700000000999; 4102444799999;
   8639999999999999; 8640000000000000].

(** ** The price band of liquidityPoolDeposit *)

(** The band as the specification words it, [price*(1-0.1)] and
    [price*(1+0.1)], in doubles. *)
Definition claimedMinPrice (maxReserveA maxReserveB : string) : float64 :=
  f64_mul (exactPrice maxReserveA maxReserveB) (f64_sub (f64_of_Z 1) lit_0_1).

Definition claimedMaxPrice (maxReserveA maxReserveB : string) : float64 :=
  f64_mul (exactPrice maxReserveA maxReserveB) (f64_add (f64_of_Z 1) lit_0_1).

(** The same band in exact arithmetic, for reserves that are the whole
    numbers [a] and [b]: [a/b * num/den] to the nearest multiple of
    [10^-7], the larger of two. *)
Definition exactBandText (num den a b : Z) : string :=
  fixedDigits 7 ((2 * num * a * 10 ^ 7 + den * b) / (2 * den * b)).

(** A reserve string that [Number] reads as a positive finite number. *)
Definition positiveNumeric (s : string) : bool :=
  match Number s with
  | S754_finite false _ _ => true
  | _ => false
  end.

(** [n] is the integer nearest to [m * 2^e * 10^7], the larger of two. *)
Definition nearestTo (n : Z) (m : positive) (e : Z) : Prop :=
  match e with
  | Zneg k =>
      2 ^ Zpos k * (2 * n - 1) <= 2 * (Zpos m * 10 ^ 7)
      < 2 ^ Zpos k * (2 * n + 1)
  | _ => n = Zpos m * 10 ^ 7 * 2 ^ e
  end.

(** ** Concrete runs *)

Definition sampleWorld : World := {| now := 1700000000123; log := [] |}.

Definition notFound : GetTransactionResponse :=
  {| status := NOT_FOUND; resultXdr := "" |}.

Definition succeeded : GetTransactionResponse :=
  {| status := SUCCESS; resultXdr := "AAAAAAAAAGQ=" |}.

(** A Soroban server that answers NOT_FOUND twice and then SUCCESS. *)
Definition twiceThenSuccess : SorobanServer :=
  {| soroban_getAccount := fun pk => Ok {| accountId := pk; sequence := 7 |};
     soroban_prepareTransaction := fun tx => Ok tx;
     soroban_sendTransaction := fun _ => Ok {| hash := "9f2c" |};
     soroban_getTransaction := fun _ k =>
       match k with
       | O | S O => Ok notFound
       | _ => Ok succeeded
       end |}.

(** A Soroban server that never finds the transaction. *)
Definition neverFound : SorobanServer :=
  {| soroban_getAccount := fun pk => Ok {| accountId := pk; sequence := 7 |};
     soroban_prepareTransaction := fun tx => Ok tx;
     soroban_sendTransaction := fun _ => Ok {| hash := "9f2c" |};
     soroban_getTransaction := fun _ _ => Ok notFound |}.

Definition connectionRefused : JsError :=
  {| message := "connect ECONNREFUSED"; isAxiosError := true; response := None |}.

(** A Soroban server that rejects every [sendTransaction]. *)
Definition sendRefused : SorobanServer :=
  {| soroban_getAccount := fun pk => Ok {| accountId := pk; sequence := 7 |};
     soroban_prepareTransaction := fun tx => Ok tx;
     soroban_sendTransaction := fun _ => Throw connectionRefused;
     soroban_getTransaction := fun _ _ => Ok notFound |}.

Definition sampleHorizon : HorizonServer :=
  {| horizon_loadAccount := fun pk => Ok {| accountId := pk; sequence := 7 |};
     horizon_submitTransaction := fun _ => Ok {| hash := "9f2c" |} |}.

Definition horizonDown : HorizonServer :=
  {| horizon_loadAccount := fun _ => Throw connectionRefused;
     horizon_submitTransaction := fun _ => Throw connectionRefused |}.

Definition sampleTxMaker : TxMaker :=
  {| horizonServer := sampleHorizon;
     sorobanServer := twiceThenSuccess;
     friendbotURI := "http://localhost:8000/friendbot?addr=";
     routerContractAddress := "CROUTER";
     network := "standalone" |}.

Definition failingTxMaker : TxMaker :=
  {| horizonServer := horizonDown;
     sorobanServer := sendRefused;
     friendbotURI := "http://localhost:8000/friendbot?addr=";
     routerContractAddress := "CROUTER";
     network := "standalone" |}.

Definition alice : TestAccount := {| privateKey := "SALICE"; publicKey := "GALICE" |}.
Definition bob : TestAccount := {| privateKey := "SBOB"; publicKey := "GBOB" |}.

Definition sampleAddLiquidity : addLiquiditySoroswapArgs.t :=
  {| addLiquiditySoroswapArgs.amountADesired := "1000";
     addLiquiditySoroswapArgs.amountAMin := "0";
     addLiquiditySoroswapArgs.amountBDesired := "2000";
     addLiquiditySoroswapArgs.amountBMin := "0";
     addLiquiditySoroswapArgs.source := alice;
     addLiquiditySoroswapArgs.to := bob;
     addLiquiditySoroswapArgs.tokenA := "CTOKENA";
     addLiquiditySoroswapArgs.tokenB := "CTOKENB" |}.

Definition sampleMint : mintTokensArgs.t :=
  {| mintTokensArgs.amount := "500";
     mintTokensArgs.contractId := "CTOKENA";
     mintTokensArgs.destination := "GBOB";
     mintTokensArgs.source := alice |}.

Definition samplePayment : paymentArgs.t :=
  {| paymentArgs.amount := "10";
     paymentArgs.asset := Native;
     paymentArgs.from := alice;
     paymentArgs.to := "GBOB" |}.

Definition routers : list RouterRecord :=
  [{| Async.network := "standalone"; router_id := "1"; router_address := "CSTANDALONE" |};
   {| Async.network := "testnet"; router_id := "2"; router_address := "CTESTNET" |}].

Definition sampleAxios : Axios := fun _ => Ok routers.

Definition faucetSays (body : FaucetJson) : Fetch :=
  fun _ => Ok {| json := Ok body |}.

(** ** Submissions *)

Definition isSubmission (ev : Event) : bool :=
  match ev with
  | EvSubmitTransaction _ | EvSendTransaction _ => true
  | _ => false
  end.

(** The number of envelopes handed to a server among the events. *)
Definition submissions (evs : list Event) : nat :=
  List.length (filter isSubmission evs).

(** [c] adds at most [n] submissions to the log. *)
Definition submitsAtMost {A} (n : nat) (c : Js A) : Prop :=
  forall w, exists evs,
    log (snd (c w)) = log w ++ evs /\ (submissions evs <= n)%nat.

(** The lemmas on computations that submit nothing, and the tactic that
    applies them. *)
Create HintDb quiet discriminated.

Ltac quiet :=
  unfold console_log, console_error, loadAccount, getAccount,
    prepareTransaction;
  auto 20 with quiet.

Definition isConsole (ev : Event) : bool :=
  match ev with
  | EvConsoleLog _ | EvConsoleError _ => true
  | _ => false
  end.

(** ** The hashes that are polled *)

(** The hashes of the queries among the events. *)
Fixpoint polledHashes (evs : list Event) : list string :=
  match evs with
  | [] => []
  | EvGetTransaction h :: r => h :: polledHashes r
  | _ :: r => polledHashes r
  end.

(** [c] only queries hashes that satisfy [P]. *)
Definition pollsOnly {A} (P : string -> Prop) (c : Js A) : Prop :=
  forall w, exists evs,
    log (snd (c w)) = log w ++ evs
    /\ forall h, In h (polledHashes evs) -> P h.

(** A hash one of the two servers of the client gave back for an envelope
    it accepted. *)
Definition acceptedHash (this : TxMaker) (h : string) : Prop :=
  exists tx r,
    (horizon_submitTransaction (horizonServer this) tx = Ok r
     \/ soroban_sendTransaction (sorobanServer this) tx = Ok r)
    /\ hash r = h.

(** The lemmas on [pollsOnly], and the tactic that applies them. *)
Create HintDb polls discriminated.

Ltac polls :=
  unfold console_log, console_error, loadAccount, getAccount,
    prepareTransaction;
  auto 20 with polls.

(** ** hexToByte on any characters *)

(** A character [parseInt] cannot start a number with: no hex digit, no
    white space, no sign. *)
Definition unreadable (c : ascii) : bool :=
  negb (isHexDigit c || isStrWhiteSpaceChar c || (code c =? 43) || (code c =? 45)).

(** Every pair of characters starts with an unreadable one. *)
Fixpoint unreadablePairs (s : string) : bool :=
  match s with
  | String a (String _ r) => unreadable a && unreadablePairs r
  | _ => true
  end.

(** ** getAssetBalance *)

(** The lines the callback of [getAssetBalance] accepts for an asset. *)
Definition lineMatches (asset : Asset) (line : BalanceLine) : bool :=
  match line, asset with
  | BalanceNative _, Native => true
  | BalanceCredit _ code issuer, Credit code' issuer' =>
      String.eqb code code' && String.eqb issuer issuer'
  | _, _ => false
  end.

Definition isPoolShares (line : BalanceLine) : bool :=
  match line with
  | BalancePoolShares _ _ => true
  | _ => false
  end.

(** One note on the console for each line of pool shares. *)
Definition poolSharesNotes (lines : list BalanceLine) : list Event :=
  map (fun _ => EvConsoleLog [LStr "Liquidity pool shares not supported yet"])
    (filter isPoolShares lines).

(** ** fundAccount *)

Fixpoint allUnreserved (s : string) : bool :=
  match s with
  | EmptyString => true
  | String c r => uriUnreserved c && allUnreserved r
  end.

(** ** mintTokens *)

(** The envelope [mintTokens] builds: one invocation of [mint] on the token
    contract, with the destination and the amount as its arguments. *)
Definition mintEnvelope (passphrase : string) (nowMs : Z) (source : Account)
    (args : mintTokensArgs.t) : Transaction :=
  builtEnvelope passphrase nowMs source
    (Keypair_fromSecret (privateKey (mintTokensArgs.source args)))
    [OpInvokeContractFunction (mintTokensArgs.contractId args) "mint"
       [ScvAddress (mintTokensArgs.destination args);
        ScvI128 (Number (mintTokensArgs.amount args))]].

(** ** The router methods *)

(** What a router method called for the account [publicKey] can end in: a
    confirmation with a settled status, [undefined], a rejection that comes
    from fetching the account, from the unsupported network or from the
    preparation, or a promise still pending; never the error object. *)
Definition routerOutcome (this : TxMaker) (publicKey : string)
    (outcome : Outcome FacadeResult) : Prop :=
  match outcome with
  | Resolved (Confirmation confirmation) => status confirmation <> NOT_FOUND
  | Resolved (ErrorObject _ _) => False
  | Resolved Undefined => True
  | Rejected e =>
      soroban_getAccount (sorobanServer this) publicKey = Throw e
      \/ getNetworkPassphrase (network this) = Throw e
      \/ (exists tx, soroban_prepareTransaction (sorobanServer this) tx = Throw e)
  | Pending => True
  end.

(** ** More concrete runs *)

(** A Soroban server whose second answer to a query is a failure. *)
Definition failsOnSecondQuery : SorobanServer :=
  {| soroban_getAccount := fun pk => Ok {| accountId := pk; sequence := 7 |};
     soroban_prepareTransaction := fun tx => Ok tx;
     soroban_sendTransaction := fun _ => Ok {| hash := "9f2c" |};
     soroban_getTransaction := fun _ k =>
       match k with
       | O => Ok notFound
       | _ => Throw connectionRefused
       end |}.

Definition testnetTxMaker : TxMaker :=
  {| horizonServer := sampleHorizon;
     sorobanServer := twiceThenSuccess;
     friendbotURI := "https://friendbot.stellar.org/?addr=";
     routerContractAddress := "CROUTER";
     network := "testnet" |}.

Definition mainnetTxMaker : TxMaker :=
  {| horizonServer := sampleHorizon;
     sorobanServer := twiceThenSuccess;
     friendbotURI := "https://friendbot.stellar.org/?addr=";
     routerContractAddress := "CROUTER";
     network := "mainnet" |}.

Definition sampleWithdraw : liquidityPoolWithdrawArgs.t :=
  {| liquidityPoolWithdrawArgs.amount := "5";
     liquidityPoolWithdrawArgs.minAmountA := "1";
     liquidityPoolWithdrawArgs.minAmountB := "2";
     liquidityPoolWithdrawArgs.poolAsset :=
       {| assetA := Native; assetB := Credit "USDC" "GISSUER"; poolFee := 30 |};
     liquidityPoolWithdrawArgs.source := alice |}.

Definition sampleBalances : AccountResponse :=
  {| balances :=
       [BalancePoolShares "3.0000000" "dd7b1ab8";
        BalanceCredit "12.5000000" "XLM" "GFAKE";
        BalanceCredit "7.0000000" "USDC" "GISSUER";
        BalanceNative "99.9999900"] |}.

(* ===================================================================== *)
(** * The built-ins on known values *)
(* ===================================================================== *)

(** [Number] on literals whose doubles are known: 0.1 is
    [0x1999999999999A * 2^-56], the literal with more digits than a double
    holds is rounded once, the smallest subnormal and the largest finite
    double are read, and what is no numeric literal is NaN. *)
Lemma Number_known_values :
  Number "0.1" = S754_finite false 7205759403792794 (-56)
  /\ Number "0.3" = S754_finite false 5404319552844595 (-54)
  /\ Number "123456789.123456789" = S754_finite false 8285044871162741 (-26)
  /\ Number "9007199254740993" = S754_finite false 4503599627370496 1
  /\ Number "4.9e-324" = S754_finite false 1 (-1074)
  /\ Number "1.7976931348623157e308" = S754_finite false 9007199254740991 971
  /\ Number "1e400" = S754_infinity false
  /\ Number " 0x1F " = f64_of_Z 31
  /\ Number "-0" = S754_zero true
  /\ Number "" = S754_zero false
  /\ Number "12px" = S754_nan
  /\ Number "." = S754_nan.
Proof. vm_compute. repeat split. Qed.

(** [toFixed] on doubles that sit just below or above a decimal tie. *)
Lemma toFixed_known_values :
  toFixed (Number "1.005") 2 = FixedText "1.00"
  /\ toFixed (Number "8.345") 2 = FixedText "8.35"
  /\ toFixed (Number "10.235") 2 = FixedText "10.23"
  /\ toFixed (Number "1.45") 1 = FixedText "1.4"
  /\ toFixed (Number "2.5") 0 = FixedText "3"
  /\ toFixed (Number "-1.5") 0 = FixedText "-2"
  /\ toFixed (Number "0.000001") 7 = FixedText "0.0000010"
  /\ toFixed (Number "-0.00000001") 7 = FixedText "-0.0000000"
  /\ toFixed (Number "0") 7 = FixedText "0.0000000"
  /\ toFixed (Number "abc") 7 = FixedText "NaN"
  /\ toFixed (Number "1e21") 7 = ToStringOf (Number "1e21").
Proof. vm_compute. repeat split. Qed.

Lemma parseInt_known_values :
  parseInt "ff" 16 = Some 255
  /\ parseInt "0x1f" 16 = Some 31
  /\ parseInt " -7" 16 = Some (-7)
  /\ parseInt "1z" 16 = Some 1
  /\ parseInt "zz" 16 = None
  /\ parseInt "0x" 16 = None
  /\ parseInt "0x10" 0 = Some 16
  /\ parseInt "12" 0 = Some 12
  /\ parseInt "101" 2 = Some 5
  /\ parseInt "7" 37 = None.
Proof. vm_compute. repeat split. Qed.

(* ===================================================================== *)
(** * getNetworkPassphrase *)
(* ===================================================================== *)

Lemma getNetworkPassphrase_supported (network_ passphrase : string) :
  getNetworkPassphrase network_ = Ok passphrase ->
  network_ = "testnet" \/ network_ = "standalone".
Proof.
  unfold getNetworkPassphrase.
  destruct (String.eqb_spec network_ "testnet") as [-> | _]; [now left |].
  destruct (String.eqb_spec network_ "standalone") as [-> | _]; [now right |].
  discriminate.
Qed.

Lemma getNetworkPassphrase_unsupported (network_ : string) :
  network_ <> "standalone"%string -> network_ <> "testnet"%string ->
  getNetworkPassphrase network_ = Throw unsupportedNetwork.
Proof.
  intros Hs Ht. unfold getNetworkPassphrase.
  destruct (String.eqb_spec network_ "testnet"); [contradiction |].
  destruct (String.eqb_spec network_ "standalone"); [contradiction |].
  reflexivity.
Qed.

(** C5. The resolver gives [standalone] and [testnet] each its own
    passphrase, the two differ, and any other name makes it throw the
    unsupported-network error: no name falls back on a default. *)
Theorem getNetworkPassphrase_resolves_two_networks_only :
  getNetworkPassphrase "standalone" = Ok Networks_STANDALONE
  /\ getNetworkPassphrase "testnet" = Ok Networks_TESTNET
  /\ Networks_STANDALONE <> Networks_TESTNET
  /\ (forall network_,
        network_ <> "standalone" -> network_ <> "testnet" ->
        getNetworkPassphrase network_ = Throw unsupportedNetwork)
  /\ (forall network_ passphrase,
        getNetworkPassphrase network_ = Ok passphrase ->
        network_ = "testnet" \/ network_ = "standalone").
Proof.
  repeat split.
  - discriminate.
  - apply getNetworkPassphrase_unsupported.
  - apply getNetworkPassphrase_supported.
Qed.

Lemma getNetworkPassphrase_resolves_two_networks_only_witness :
  getNetworkPassphrase "mainnet" = Throw unsupportedNetwork.
Proof.
  apply (proj1 (proj2 (proj2 (proj2
    getNetworkPassphrase_resolves_two_networks_only)))); discriminate.
Defined.

(* ===================================================================== *)
(** * getRouterContractAddress *)
(* ===================================================================== *)

Lemma find_first_match {A} (p : A -> bool) (l : list A) (x : A) :
  find p l = Some x ->
  exists before rest,
    l = before ++ x :: rest /\ p x = true
    /\ forall y, In y before -> p y = false.
Proof.
  induction l as [| a l IH]; simpl; [discriminate |].
  destruct (p a) eqn:Ha.
  - intros [= ->]. exists [], l. repeat split; [assumption | intros y []].
  - intros H. destruct (IH H) as (before & rest & -> & Hx & Hb).
    exists (a :: before), rest. repeat split; [assumption |].
    intros y [<- | Hy]; auto.
Qed.

Lemma find_some_of_In {A} (p : A -> bool) (l : list A) (x : A) :
  In x l -> p x = true -> exists y, find p l = Some y.
Proof.
  induction l as [| a l IH]; simpl; [intros [] |].
  intros Hin Hp. destruct (p a) eqn:Ha; [eauto |].
  destruct Hin as [-> | Hin]; [congruence | auto].
Qed.

Lemma find_none_of_all {A} (p : A -> bool) (l : list A) :
  (forall y, In y l -> p y = false) -> find p l = None.
Proof.
  induction l as [| a l IH]; simpl; [reflexivity |].
  intros H. rewrite (H a (or_introl eq_refl)). apply IH. auto.
Qed.

(** C10. [getRouterContractAddress] always resolves. When the answer of the
    discovery endpoint holds a record for the requested network, it
    resolves to the router address of the first such record, which is that
    of the record when only one matches, and logs nothing; when no record
    matches, or when the request fails, it logs the error it caught and
    resolves to the string [error]. *)
Theorem getRouterContractAddress_never_raises
    (axios : Axios) (uri network_ : string) (w : World) :
  (forall data record,
      axios (routerEndpoint uri) = Ok data ->
      In record data -> Async.network record = network_ ->
      exists before first rest,
        data = before ++ first :: rest
        /\ Async.network first = network_
        /\ (forall r, In r before -> Async.network r <> network_)
        /\ getRouterContractAddress axios uri network_ w
           = (Resolved (router_address first),
              logged w [EvAxiosGet (routerEndpoint uri)]))
  /\ (forall data record,
        axios (routerEndpoint uri) = Ok data ->
        In record data -> Async.network record = network_ ->
        (forall r, In r data -> Async.network r = network_ -> r = record) ->
        getRouterContractAddress axios uri network_ w
        = (Resolved (router_address record),
           logged w [EvAxiosGet (routerEndpoint uri)]))
  /\ (forall data,
        axios (routerEndpoint uri) = Ok data ->
        (forall r, In r data -> Async.network r <> network_) ->
        getRouterContractAddress axios uri network_ w
        = (Resolved "error",
           logged w [EvAxiosGet (routerEndpoint uri);
                     EvConsoleLog [LStr "error:";
                                   LError (TypeError_undefined "router_address")]]))
  /\ (forall e,
        axios (routerEndpoint uri) = Throw e ->
        getRouterContractAddress axios uri network_ w
        = (Resolved "error",
           logged w [EvAxiosGet (routerEndpoint uri);
                     EvConsoleLog [LStr "error:"; LError e]]))
  /\ (exists address w',
        getRouterContractAddress axios uri network_ w = (Resolved address, w')).
Proof.
  unfold getRouterContractAddress, routerEndpoint, tryCatch, bind, axios_get,
    perform, fromResult, logged, ret, throw, console_log. simpl.
  repeat split.
  - intros data record Hax Hin Hnet. rewrite Hax. simpl.
    destruct (find_some_of_In (fun router => String.eqb (Async.network router) network_)
                data record Hin) as [first Hf].
    { now apply String.eqb_eq. }
    destruct (find_first_match _ _ _ Hf) as (before & rest & -> & Hp & Hb).
    exists before, first, rest. rewrite Hf. simpl.
    repeat split.
    + now apply String.eqb_eq.
    + intros r Hr. apply String.eqb_neq. auto.
  - intros data record Hax Hin Hnet Huniq. rewrite Hax. simpl.
    destruct (find_some_of_In (fun router => String.eqb (Async.network router) network_)
                data record Hin) as [first Hf].
    { now apply String.eqb_eq. }
    rewrite Hf. simpl.
    destruct (find_first_match _ _ _ Hf) as (before & rest & Hdata & Hp & _).
    rewrite (Huniq first); [reflexivity | | now apply String.eqb_eq].
    rewrite Hdata. apply in_or_app. right. now left.
  - intros data Hax Hall. rewrite Hax. simpl.
    rewrite find_none_of_all.
    + simpl. now rewrite <- app_assoc.
    + intros y Hy. apply String.eqb_neq. auto.
  - intros e Hax. rewrite Hax. simpl. now rewrite <- app_assoc.
  - destruct (axios (uri ++ "/api/router")%string) as [data | e]; simpl.
    + destruct (find _ data); simpl; eauto.
    + eauto.
Qed.

(* ===================================================================== *)
(** * Running promises *)
(* ===================================================================== *)

Lemma logged_logged (w : World) (l1 l2 : list Event) :
  logged (logged w l1) l2 = logged w (l1 ++ l2).
Proof. unfold logged. simpl. now rewrite app_assoc. Qed.

Lemma bind_resolved {A B} (c : Js A) (k : A -> Js B) (w w' : World) (a : A) :
  c w = (Resolved a, w') -> bind c k w = k a w'.
Proof. intros H. unfold bind. now rewrite H. Qed.

Lemma bind_rejected {A B} (c : Js A) (k : A -> Js B) (w w' : World) (e : JsError) :
  c w = (Rejected e, w') -> bind c k w = (Rejected e, w').
Proof. intros H. unfold bind. now rewrite H. Qed.

Lemma bind_pending {A B} (c : Js A) (k : A -> Js B) (w w' : World) :
  c w = (Pending, w') -> bind c k w = (Pending, w').
Proof. intros H. unfold bind. now rewrite H. Qed.

Lemma tryCatch_resolved {A} (c : Js A) (h : JsError -> Js A) (w w' : World) (a : A) :
  c w = (Resolved a, w') -> tryCatch c h w = (Resolved a, w').
Proof. intros H. unfold tryCatch. now rewrite H. Qed.

Lemma tryCatch_rejected {A} (c : Js A) (h : JsError -> Js A) (w w' : World)
    (e : JsError) :
  c w = (Rejected e, w') -> tryCatch c h w = h e w'.
Proof. intros H. unfold tryCatch. now rewrite H. Qed.

(** One call on a server: its event, then its answer. *)
Lemma call_ok {A} (ev : Event) (r : Result A) (a : A) (w : World) :
  r = Ok a -> (perform ev ;; fromResult r) w = (Resolved a, logged w [ev]).
Proof. intros ->. reflexivity. Qed.

Lemma call_throw {A} (ev : Event) (r : Result A) (e : JsError) (w : World) :
  r = Throw e -> (perform ev ;; fromResult r) w = (Rejected e, logged w [ev]).
Proof. intros ->. reflexivity. Qed.

Lemma extends_refl (w : World) : extends w w.
Proof. exists []. now rewrite app_nil_r. Qed.

Lemma extends_trans (w1 w2 w3 : World) :
  extends w1 w2 -> extends w2 w3 -> extends w1 w3.
Proof.
  intros [l1 H1] [l2 H2]. exists (l1 ++ l2). now rewrite H2, H1, app_assoc.
Qed.

Lemma appendOnly_ret {A} (a : A) : appendOnly (ret a).
Proof. intros w. apply extends_refl. Qed.

Lemma appendOnly_throw {A} (e : JsError) : appendOnly (@throw A e).
Proof. intros w. apply extends_refl. Qed.

Lemma appendOnly_pending {A} : appendOnly (@pending A).
Proof. intros w. apply extends_refl. Qed.

Lemma appendOnly_fromResult {A} (r : Result A) : appendOnly (fromResult r).
Proof. destruct r; [apply appendOnly_ret | apply appendOnly_throw]. Qed.

Lemma appendOnly_perform (ev : Event) : appendOnly (perform ev).
Proof. intros w. now exists [ev]. Qed.

Lemma appendOnly_sleep (ms : Z) : appendOnly (sleep ms).
Proof. intros w. now exists [EvSleep ms]. Qed.

Lemma appendOnly_Date_now : appendOnly Date_now.
Proof. intros w. apply extends_refl. Qed.

Lemma appendOnly_bind {A B} (c : Js A) (k : A -> Js B) :
  appendOnly c -> (forall a, appendOnly (k a)) -> appendOnly (bind c k).
Proof.
  intros Hc Hk w. unfold bind. specialize (Hc w).
  destruct (c w) as [[a | e |] w']; simpl in *; try assumption.
  eapply extends_trans; [exact Hc | apply Hk].
Qed.

Lemma appendOnly_tryCatch {A} (c : Js A) (h : JsError -> Js A) :
  appendOnly c -> (forall e, appendOnly (h e)) -> appendOnly (tryCatch c h).
Proof.
  intros Hc Hh w. unfold tryCatch. specialize (Hc w).
  destruct (c w) as [[a | e |] w']; simpl in *; try assumption.
  eapply extends_trans; [exact Hc | apply Hh].
Qed.

#[local] Hint Resolve appendOnly_ret appendOnly_throw appendOnly_pending
  appendOnly_fromResult appendOnly_perform appendOnly_sleep appendOnly_Date_now
  : js.
#[local] Hint Extern 2 (appendOnly (bind _ _)) =>
  apply appendOnly_bind; [| intro] : js.
#[local] Hint Extern 2 (appendOnly (tryCatch _ _)) =>
  apply appendOnly_tryCatch; [| intro] : js.
#[local] Hint Extern 3 (appendOnly (if ?b then _ else _)) => destruct b : js.
#[local] Hint Extern 3 (appendOnly (match ?x with _ => _ end)) => destruct x : js.

Lemma appendOnly_getTransaction (server : SorobanServer) (hash : string) :
  appendOnly (getTransaction server hash).
Proof.
  intros w. unfold getTransaction.
  assert (H : appendOnly
    (perform (EvGetTransaction hash) ;;
     fromResult (soroban_getTransaction server hash (queriesFor hash (log w)))))
    by append_only.
  apply H.
Qed.

Lemma appendOnly_showErrorResultCodes (error : JsError) :
  appendOnly (showErrorResultCodes error).
Proof.
  unfold showErrorResultCodes.
  destruct (isAxiosError error), (response error) as [apiError |];
    try destruct (result_codes apiError); append_only.
Qed.

Lemma appendOnly_waitForConfirmation (fuel : nat) (hash : string)
    (server : SorobanServer) :
  appendOnly (waitForConfirmation fuel hash server).
Proof.
  induction fuel as [| fuel IH]; simpl; [append_only |].
  apply appendOnly_bind; [apply appendOnly_getTransaction |].
  intros confirmation. destruct (negb _); append_only.
Qed.

#[local] Hint Resolve appendOnly_getTransaction appendOnly_showErrorResultCodes
  appendOnly_waitForConfirmation : js.

Lemma appendOnly_submitTransaction (server : HorizonServer) (tx : Transaction) :
  appendOnly (submitTransaction server tx).
Proof. unfold submitTransaction. append_only. Qed.

Lemma appendOnly_sendTransaction (server : SorobanServer) (tx : Transaction) :
  appendOnly (sendTransaction server tx).
Proof. unfold sendTransaction. append_only. Qed.

#[local] Hint Resolve appendOnly_submitTransaction appendOnly_sendTransaction : js.

(* ===================================================================== *)
(** * TxMaker.buildTx *)
(* ===================================================================== *)

Lemma fold_left_addOperation (ops : list Operation) (tb : TransactionBuilder) :
  fold_left addOperation ops tb
  = {| tb_source := tb_source tb; tb_fee := tb_fee tb;
       tb_networkPassphrase := tb_networkPassphrase tb;
       tb_operations := tb_operations tb ++ ops;
       tb_timebounds := tb_timebounds tb |}.
Proof.
  revert tb. induction ops as [| op ops IH]; intros tb; simpl.
  - rewrite app_nil_r. now destruct tb.
  - rewrite IH. simpl. now rewrite <- app_assoc.
Qed.

Lemma buildTx_ok (this : TxMaker) (source : Account) (signer : Keypair)
    (ops : list Operation) (w : World) (passphrase : string) :
  getNetworkPassphrase (network this) = Ok passphrase ->
  buildTx this source signer ops w
  = (Resolved (builtEnvelope passphrase (now w) source signer ops), w).
Proof.
  intros H. unfold buildTx, bind, Date_now, ret. rewrite H. simpl.
  rewrite fold_left_addOperation. reflexivity.
Qed.

Lemma buildTx_unsupported (this : TxMaker) (source : Account) (signer : Keypair)
    (ops : list Operation) (w : World) (e : JsError) :
  getNetworkPassphrase (network this) = Throw e ->
  buildTx this source signer ops w = (Rejected e, w).
Proof. intros H. unfold buildTx, bind. now rewrite H. Qed.

Lemma buildTx_pure (this : TxMaker) (source : Account) (signer : Keypair)
    (ops : list Operation) (w : World) :
  snd (buildTx this source signer ops w) = w.
Proof.
  destruct (getNetworkPassphrase (network this)) as [passphrase | e] eqn:H.
  - now rewrite (buildTx_ok _ _ _ _ _ _ H).
  - now rewrite (buildTx_unsupported _ _ _ _ _ _ H).
Qed.

Lemma appendOnly_buildTx (this : TxMaker) (source : Account) (signer : Keypair)
    (ops : list Operation) :
  appendOnly (buildTx this source signer ops).
Proof. intros w. rewrite buildTx_pure. apply extends_refl. Qed.

#[local] Hint Resolve appendOnly_buildTx : js.

(** C6. On a supported network [buildTx] resolves to an envelope whose fee
    is the base fee for each operation, whose passphrase is the one
    [getNetworkPassphrase] gives for the configured network, whose upper
    time bound is the second of construction plus 30, and whose only
    signature is that of the supplied key; on any other network it throws
    the unsupported-network error; either way it leaves the world as it
    found it: no event, so no network I/O. *)
Theorem buildTx_envelope (this : TxMaker) (source : Account) (signer : Keypair)
    (ops : list Operation) (w : World) :
  (forall passphrase,
      getNetworkPassphrase (network this) = Ok passphrase ->
      exists tx,
        buildTx this source signer ops w = (Resolved tx, w)
        /\ tx_fee tx = BASE_FEE * Z.of_nat (List.length ops)
        /\ tx_networkPassphrase tx = passphrase
        /\ maxTime (tx_timeBounds tx) = now w / 1000 + 30
        /\ tx_signatures tx = [signer]
        /\ tx_operations tx = ops
        /\ tx_source tx = accountId source
        /\ tx_sequence tx = sequence source + 1)
  /\ (network this <> "standalone"%string -> network this <> "testnet"%string ->
      buildTx this source signer ops w = (Rejected unsupportedNetwork, w))
  /\ snd (buildTx this source signer ops w) = w
  /\ filter isNetworkIO (log (snd (buildTx this source signer ops w)))
     = filter isNetworkIO (log w).
Proof.
  repeat split.
  - intros passphrase H. eexists. split; [apply (buildTx_ok _ _ _ _ _ _ H) |].
    repeat split.
  - intros Hs Ht. apply buildTx_unsupported.
    now apply getNetworkPassphrase_unsupported.
  - apply buildTx_pure.
  - now rewrite buildTx_pure.
Qed.

(* ===================================================================== *)
(** * TxMaker.fundAccount *)
(* ===================================================================== *)

Lemma showErrorResultCodes_resolves (error : JsError) (w : World) :
  exists evs, showErrorResultCodes error w = (Resolved tt, logged w evs).
Proof.
  unfold showErrorResultCodes.
  destruct (isAxiosError error), (response error) as [apiError |];
    try destruct (result_codes apiError); eexists;
    unfold bind, console_log, console_error, perform, logged; simpl;
    rewrite <- ?app_assoc; reflexivity.
Qed.

(** What [fundAccount] does once the faucet has failed with [e]. *)
Lemma fundAccount_caught (e : JsError) (w : World) :
  exists evs,
    (console_error [LStr "ERROR!"; LError e] ;; showErrorResultCodes e) w
    = (Resolved tt, logged w (EvConsoleError [LStr "ERROR!"; LError e] :: evs)).
Proof.
  destruct (showErrorResultCodes_resolves e
              (logged w [EvConsoleError [LStr "ERROR!"; LError e]])) as [evs H].
  exists evs. unfold bind, console_error, perform.
  fold (logged w [EvConsoleError [LStr "ERROR!"; LError e]]).
  rewrite H, logged_logged. reflexivity.
Qed.

(** C8. [fundAccount] always resolves; what it reports is in the log. A
    faucet answer with [successful] set is reported with [console.log] as a
    success; an answer without it whose [detail] is the account-already-
    exists sentinel is reported with [console.log] too; any other answer is
    reported with [console.error] together with the answer; and when the
    request or the reading of its body fails, the error is reported with
    [console.error]. *)
Theorem fundAccount_outcomes (fetch : Fetch) (this : TxMaker)
    (account : TestAccount) (w : World) :
  (forall response body,
      fetch (faucetURL this account) = Ok response -> json response = Ok body ->
      successful body = true ->
      fundAccount fetch this account w
      = (Resolved tt,
         logged w [EvFetch (faucetURL this account);
                   EvConsoleLog [LStr successMessage]]))
  /\ (forall response body,
        fetch (faucetURL this account) = Ok response -> json response = Ok body ->
        successful body = false -> detail body = Some alreadyExists ->
        fundAccount fetch this account w
        = (Resolved tt,
           logged w [EvFetch (faucetURL this account);
                     EvConsoleLog [LStr "Account already exists:"]]))
  /\ (forall response body,
        fetch (faucetURL this account) = Ok response -> json response = Ok body ->
        successful body = false -> detail body <> Some alreadyExists ->
        fundAccount fetch this account w
        = (Resolved tt,
           logged w [EvFetch (faucetURL this account);
                     EvConsoleError [LStr failureMessage; LJson body]]))
  /\ (forall e,
        fetch (faucetURL this account) = Throw e
        \/ (exists response,
               fetch (faucetURL this account) = Ok response
               /\ json response = Throw e) ->
        exists evs,
          fundAccount fetch this account w
          = (Resolved tt,
             logged w (EvFetch (faucetURL this account)
                       :: EvConsoleError [LStr "ERROR!"; LError e] :: evs)))
  /\ (exists w', fundAccount fetch this account w = (Resolved tt, w')).
Proof.
  unfold fundAccount, tryCatch, fetch_. fold (faucetURL this account).
  assert (Hcaught : forall e,
    exists evs,
      (console_error [LStr "ERROR!"; LError e] ;; showErrorResultCodes e)
        (logged w [EvFetch (faucetURL this account)])
      = (Resolved tt,
         logged w (EvFetch (faucetURL this account)
                   :: EvConsoleError [LStr "ERROR!"; LError e] :: evs))).
  { intros e.
    destruct (fundAccount_caught e (logged w [EvFetch (faucetURL this account)]))
      as [evs H].
    exists evs. now rewrite H, logged_logged. }
  repeat split.
  - intros response body Hf Hj Hs.
    rewrite (bind_resolved _ _ _ _ _ (call_ok _ _ _ _ Hf)), Hj.
    cbv [fromResult bind ret]. rewrite Hs. js_run. reflexivity.
  - intros response body Hf Hj Hs Hd.
    rewrite (bind_resolved _ _ _ _ _ (call_ok _ _ _ _ Hf)), Hj.
    cbv [fromResult bind ret]. rewrite Hs, Hd, String.eqb_refl. js_run.
    reflexivity.
  - intros response body Hf Hj Hs Hd.
    rewrite (bind_resolved _ _ _ _ _ (call_ok _ _ _ _ Hf)), Hj.
    cbv [fromResult bind ret]. rewrite Hs.
    destruct (detail body) as [d |]; [| js_run; reflexivity].
    destruct (String.eqb_spec d alreadyExists) as [-> | _];
      [now elim Hd | js_run; reflexivity].
  - intros e [Hf | (response & Hf & Hj)].
    + rewrite (bind_rejected _ _ _ _ _ (call_throw _ _ _ _ Hf)).
      apply Hcaught.
    + rewrite (bind_resolved _ _ _ _ _ (call_ok _ _ _ _ Hf)), Hj.
      apply Hcaught.
  - destruct (fetch (faucetURL this account)) as [response | e] eqn:Hf.
    + rewrite (bind_resolved _ _ _ _ _ (call_ok _ _ _ _ eq_refl)).
      destruct (json response) as [body | e].
      * cbv [fromResult bind ret].
        destruct (successful body); [eexists; reflexivity |].
        destruct (detail body) as [d |]; [| eexists; reflexivity].
        destruct (String.eqb d alreadyExists); eexists; reflexivity.
      * destruct (Hcaught e) as [evs H]. eexists. exact H.
    + rewrite (bind_rejected _ _ _ _ _ (call_throw _ _ _ _ eq_refl)).
      destruct (Hcaught e) as [evs H]. eexists. exact H.
Qed.

(* ===================================================================== *)
(** * waitForConfirmation *)
(* ===================================================================== *)

Lemma queriesFor_app (h : string) (l1 l2 : list Event) :
  queriesFor h (l1 ++ l2) = (queriesFor h l1 + queriesFor h l2)%nat.
Proof.
  induction l1 as [| ev l1 IH]; simpl; [reflexivity |].
  destruct ev as [| | | | | | | h' | | |]; try assumption.
  destruct (String.eqb h h'); simpl; now rewrite IH.
Qed.

Lemma queriesFor_round (h : string) (l : list Event) (ms : Z) :
  queriesFor h (l ++ [EvGetTransaction h; EvSleep ms]) = S (queriesFor h l).
Proof. rewrite queriesFor_app. simpl. rewrite String.eqb_refl. lia. Qed.

Lemma suspensions_app (l1 l2 : list Event) :
  suspensions (l1 ++ l2) = (suspensions l1 + suspensions l2)%nat.
Proof. unfold suspensions. now rewrite filter_app, length_app. Qed.

Lemma suspensions_pollRounds (h : string) (n : nat) :
  suspensions (pollRounds h n) = n.
Proof.
  induction n as [| n IH]; [reflexivity |].
  unfold suspensions in *. simpl. now rewrite IH.
Qed.

(** One query, by the answer the service gives it. *)
Lemma getTransaction_run (server : SorobanServer) (h : string) (w : World) :
  getTransaction server h w
  = (match soroban_getTransaction server h (queriesFor h (log w)) with
     | Ok confirmation => Resolved confirmation
     | Throw e => Rejected e
     end, logged w [EvGetTransaction h]).
Proof.
  unfold getTransaction, bind, perform, fromResult.
  now destruct (soroban_getTransaction server h (queriesFor h (log w))).
Qed.

(** One turn of the loop, by the answer the service gives. *)
Lemma waitForConfirmation_interim (fuel : nat) (h : string)
    (server : SorobanServer) (w : World) :
  interim (soroban_getTransaction server h (queriesFor h (log w))) = true ->
  waitForConfirmation (S fuel) h server w
  = waitForConfirmation fuel h server
      (after w 1000 [EvGetTransaction h; EvSleep 1000]).
Proof.
  intros H. simpl. unfold bind at 1. rewrite getTransaction_run.
  destruct (soroban_getTransaction server h (queriesFor h (log w)))
    as [confirmation | e]; [| discriminate].
  simpl in H. rewrite H. simpl. unfold bind, sleep, after, logged. simpl.
  now rewrite <- app_assoc.
Qed.

Lemma waitForConfirmation_settles (fuel : nat) (h : string)
    (server : SorobanServer) (w : World) :
  interim (soroban_getTransaction server h (queriesFor h (log w))) = false ->
  waitForConfirmation (S fuel) h server w
  = (match soroban_getTransaction server h (queriesFor h (log w)) with
     | Ok confirmation => Resolved confirmation
     | Throw e => Rejected e
     end, logged w [EvGetTransaction h]).
Proof.
  intros H. simpl. unfold bind at 1. rewrite getTransaction_run.
  destruct (soroban_getTransaction server h (queriesFor h (log w)))
    as [confirmation | e]; [| reflexivity].
  simpl in H. now rewrite H.
Qed.

Lemma after_after (w : World) (a b : Z) (l1 l2 : list Event) :
  after (after w a l1) b l2 = after w (a + b) (l1 ++ l2).
Proof. unfold after. simpl. now rewrite Z.add_assoc, app_assoc. Qed.

(** [n] interim answers cost [n] rounds, whatever comes after them. *)
Lemma waitForConfirmation_rounds (n fuel : nat) (h : string)
    (server : SorobanServer) (w : World) :
  (forall k, (k < n)%nat ->
     interim (soroban_getTransaction server h (queriesFor h (log w) + k)) = true) ->
  waitForConfirmation (n + fuel) h server w
  = waitForConfirmation fuel h server
      (after w (1000 * Z.of_nat n) (pollRounds h n)).
Proof.
  revert w. induction n as [| n IH]; intros w Hk.
  - simpl. unfold after. simpl. rewrite Z.add_0_r, app_nil_r. now destruct w.
  - change (S n + fuel)%nat with (S (n + fuel)).
    rewrite waitForConfirmation_interim.
    + rewrite IH.
      * rewrite after_after.
        replace (1000 * Z.of_nat (S n)) with (1000 + 1000 * Z.of_nat n) by lia.
        reflexivity.
      * intros k Hlt. simpl. rewrite queriesFor_round.
        replace (S (queriesFor h (log w)) + k)%nat
          with (queriesFor h (log w) + S k)%nat by lia.
        apply Hk. lia.
    + specialize (Hk O ltac:(lia)). now rewrite Nat.add_0_r in Hk.
Qed.

Lemma queriesFor_after_rounds (h : string) (w : World) (ms : Z) (n : nat) :
  queriesFor h (log (after w ms (pollRounds h n)))
  = (queriesFor h (log w) + n)%nat.
Proof.
  simpl. rewrite queriesFor_app. f_equal.
  induction n as [| n IH]; simpl; [reflexivity |].
  now rewrite String.eqb_refl, IH.
Qed.

(** The first answer that is not interim, found by counting up. *)
Lemma first_settling (p : nat -> bool) (n : nat) :
  p n = false ->
  exists m, (m <= n)%nat /\ p m = false /\ forall k, (k < m)%nat -> p k = true.
Proof.
  induction n as [n IH] using lt_wf_ind. intros Hn.
  destruct (forallb p (seq 0 n)) eqn:Hall.
  - exists n. repeat split; [lia | assumption |].
    intros k Hk. rewrite forallb_forall in Hall. apply Hall.
    apply in_seq. lia.
  - assert (Hex : exists k, (k < n)%nat /\ p k = false).
    { clear IH Hn. induction n as [| n IHn]; [discriminate |].
      rewrite seq_S, forallb_app in Hall. simpl in Hall.
      destruct (forallb p (seq 0 n)).
      - exists n. split; [lia |]. now destruct (p n).
      - destruct (IHn eq_refl) as (k & Hk & Hp). exists k. split; [lia | exact Hp]. }
    destruct Hex as (k & Hk & Hp).
    destruct (IH k Hk Hp) as (m & Hm & Hpm & Hbefore).
    exists m. repeat split; [lia | assumption | assumption].
Qed.

(** A run that settles has met an answer that is not interim. *)
Lemma waitForConfirmation_settled (fuel : nat) (h : string)
    (server : SorobanServer) (w : World) :
  fst (waitForConfirmation fuel h server w) <> Pending ->
  exists n,
    (n < fuel)%nat
    /\ interim (soroban_getTransaction server h (queriesFor h (log w) + n)) = false
    /\ (forall k, (k < n)%nat ->
          interim (soroban_getTransaction server h (queriesFor h (log w) + k)) = true)
    /\ waitForConfirmation fuel h server w
       = (match soroban_getTransaction server h (queriesFor h (log w) + n) with
          | Ok confirmation => Resolved confirmation
          | Throw e => Rejected e
          end,
          after w (1000 * Z.of_nat n) (pollRounds h n ++ [EvGetTransaction h])).
Proof.
  revert w. induction fuel as [| fuel IH]; intros w Hs; [now elim Hs |].
  destruct (interim (soroban_getTransaction server h (queriesFor h (log w))))
    eqn:Hi.
  - rewrite (waitForConfirmation_interim _ _ _ _ Hi) in Hs |- *.
    destruct (IH _ Hs) as (n & Hn & Hset & Hbefore & Hrun).
    simpl in Hset, Hbefore, Hrun. rewrite queriesFor_round in *.
    exists (S n). repeat split.
    + lia.
    + now replace (queriesFor h (log w) + S n)%nat
        with (S (queriesFor h (log w)) + n)%nat by lia.
    + intros [| k] Hk; [now rewrite Nat.add_0_r |].
      replace (queriesFor h (log w) + S k)%nat
        with (S (queriesFor h (log w)) + k)%nat by lia.
      apply Hbefore. lia.
    + rewrite Hrun, after_after.
      replace (queriesFor h (log w) + S n)%nat
        with (S (queriesFor h (log w)) + n)%nat by lia.
      replace (1000 * Z.of_nat (S n)) with (1000 + 1000 * Z.of_nat n) by lia.
      reflexivity.
  - exists O. rewrite Nat.add_0_r. repeat split.
    + lia.
    + assumption.
    + intros k Hk. lia.
    + rewrite (waitForConfirmation_settles _ _ _ _ Hi). f_equal.
      unfold after, logged. simpl. now rewrite Z.add_0_r.
Qed.

Lemma status_eqb_spec (a b : GetTransactionStatus) :
  status_eqb a b = true <-> a = b.
Proof. destruct a, b; simpl; split; congruence. Qed.

Lemma interim_ok (confirmation : GetTransactionResponse) :
  interim (Ok confirmation) = true <-> status confirmation = NOT_FOUND.
Proof. apply status_eqb_spec. Qed.

Lemma interim_settled (confirmation : GetTransactionResponse) :
  status confirmation <> NOT_FOUND -> interim (Ok confirmation) = false.
Proof.
  intros H. destruct (interim (Ok confirmation)) eqn:Hi; [| reflexivity].
  now apply interim_ok in Hi.
Qed.

Lemma waitForConfirmation_never_interim (fuel : nat) (h : string)
    (server : SorobanServer) (w w' : World)
    (confirmation : GetTransactionResponse) :
  waitForConfirmation fuel h server w = (Resolved confirmation, w') ->
  status confirmation <> NOT_FOUND.
Proof.
  intros Hrun.
  destruct (waitForConfirmation_settled fuel h server w) as (n & _ & Hset & _ & Heq).
  { rewrite Hrun. discriminate. }
  rewrite Hrun in Heq.
  destruct (soroban_getTransaction server h (queriesFor h (log w) + n))
    as [c | e]; [| discriminate].
  injection Heq as -> _. intros Hnf. apply interim_ok in Hnf. congruence.
Qed.

(** Once a run has settled, a longer run settles in the same way: the
    fuel bounds the run, not the loop. *)
Lemma waitForConfirmation_more_fuel (fuel fuel' : nat) (h : string)
    (server : SorobanServer) (w : World) :
  fst (waitForConfirmation fuel h server w) <> Pending ->
  (fuel <= fuel')%nat ->
  waitForConfirmation fuel' h server w = waitForConfirmation fuel h server w.
Proof.
  intros Hs Hle.
  destruct (waitForConfirmation_settled fuel h server w Hs)
    as (n & Hn & Hset & Hbefore & Hrun).
  rewrite Hrun.
  replace fuel' with (n + S (fuel' - S n))%nat by lia.
  rewrite (waitForConfirmation_rounds n _ h server w Hbefore).
  rewrite waitForConfirmation_settles; rewrite queriesFor_after_rounds.
  - unfold logged, after. simpl. now rewrite <- app_assoc.
  - exact Hset.
Qed.

(** C1. When the tracking service answers the queries for a hash with [n]
    responses of status NOT_FOUND and then with a response of another
    status, [waitForConfirmation] resolves to that response, after [n]
    rounds of one query and one suspension of 1000 ms each and one last
    query: [n] suspensions in all. Whatever the service, a response the
    poller resolves to never has status NOT_FOUND. *)
Theorem waitForConfirmation_first_settled (server : SorobanServer)
    (hash : string) (w : World) (n fuel : nat)
    (confirmation : GetTransactionResponse) :
  (forall k, (k < n)%nat ->
     exists c,
       soroban_getTransaction server hash (queriesFor hash (log w) + k) = Ok c
       /\ status c = NOT_FOUND) ->
  soroban_getTransaction server hash (queriesFor hash (log w) + n)
  = Ok confirmation ->
  status confirmation <> NOT_FOUND ->
  (n < fuel)%nat ->
  waitForConfirmation fuel hash server w
  = (Resolved confirmation,
     after w (1000 * Z.of_nat n) (pollRounds hash n ++ [EvGetTransaction hash]))
  /\ suspensions (pollRounds hash n ++ [EvGetTransaction hash]) = n
  /\ (forall fuel' w0 w' c,
        waitForConfirmation fuel' hash server w0 = (Resolved c, w') ->
        status c <> NOT_FOUND).
Proof.
  intros Hbefore Hn Hstatus Hfuel. repeat split.
  - replace fuel with (n + S (fuel - S n))%nat by lia.
    rewrite waitForConfirmation_rounds.
    + rewrite waitForConfirmation_settles;
        rewrite queriesFor_after_rounds, Hn.
      * unfold logged, after. simpl. now rewrite <- app_assoc.
      * now apply interim_settled.
    + intros k Hk. destruct (Hbefore k Hk) as (c & -> & Hc).
      now apply interim_ok.
  - rewrite suspensions_app, suspensions_pollRounds. unfold suspensions. simpl. lia.
  - intros fuel' w0 w' c. apply waitForConfirmation_never_interim.
Qed.

(** C2. The loop has no count of retries and no timeout of its own. The
    poller settles (resolves or rejects) within some number of queries
    exactly when some answer of the service is not a NOT_FOUND response;
    for a service that answers with responses only, it resolves exactly when
    some response has a status other than NOT_FOUND; and for a service that
    answers NOT_FOUND to every query it stays pending however long the run,
    having queried and suspended once for each unit of the run. *)
Theorem waitForConfirmation_unbounded (server : SorobanServer) (hash : string)
    (w : World) :
  ((exists fuel, fst (waitForConfirmation fuel hash server w) <> Pending)
   <-> (exists n,
          interim (soroban_getTransaction server hash
                     (queriesFor hash (log w) + n)) = false))
  /\ ((forall k, exists c,
         soroban_getTransaction server hash (queriesFor hash (log w) + k) = Ok c) ->
      ((exists fuel c w',
          waitForConfirmation fuel hash server w = (Resolved c, w'))
       <-> (exists n c,
              soroban_getTransaction server hash (queriesFor hash (log w) + n)
              = Ok c
              /\ status c <> NOT_FOUND)))
  /\ ((forall k, exists c,
         soroban_getTransaction server hash (queriesFor hash (log w) + k) = Ok c
         /\ status c = NOT_FOUND) ->
      forall fuel,
        waitForConfirmation fuel hash server w
        = (Pending, after w (1000 * Z.of_nat fuel) (pollRounds hash fuel))
        /\ suspensions (pollRounds hash fuel) = fuel).
Proof.
  assert (Hfirst : forall n,
    interim (soroban_getTransaction server hash (queriesFor hash (log w) + n))
    = false ->
    exists m,
      waitForConfirmation (S m) hash server w
      = (match soroban_getTransaction server hash (queriesFor hash (log w) + m) with
         | Ok confirmation => Resolved confirmation
         | Throw e => Rejected e
         end,
         after w (1000 * Z.of_nat m) (pollRounds hash m ++ [EvGetTransaction hash]))
      /\ interim (soroban_getTransaction server hash
                    (queriesFor hash (log w) + m)) = false).
  { intros n Hn.
    destruct (first_settling
                (fun k => interim (soroban_getTransaction server hash
                                     (queriesFor hash (log w) + k))) n Hn)
      as (m & _ & Hm & Hbefore).
    exists m. split; [| exact Hm].
    replace (S m) with (m + 1)%nat by lia.
    rewrite (waitForConfirmation_rounds m 1 hash server w Hbefore).
    rewrite waitForConfirmation_settles; rewrite queriesFor_after_rounds.
    - unfold logged, after. simpl. now rewrite <- app_assoc.
    - exact Hm. }
  repeat split.
  - intros [fuel Hs].
    destruct (waitForConfirmation_settled fuel hash server w Hs)
      as (n & _ & Hn & _). now exists n.
  - intros [n Hn]. destruct (Hfirst n Hn) as (m & Hrun & Hm).
    exists (S m). rewrite Hrun. simpl.
    now destruct (soroban_getTransaction server hash (queriesFor hash (log w) + m)).
  - intros (fuel & c & w' & Hrun).
    destruct (waitForConfirmation_settled fuel hash server w) as (n & _ & _ & _ & Heq).
    { rewrite Hrun. discriminate. }
    rewrite Hrun in Heq. exists n, c. split.
    + destruct (soroban_getTransaction server hash (queriesFor hash (log w) + n));
        congruence.
    + eapply waitForConfirmation_never_interim; exact Hrun.
  - intros (n & c & Hn & Hc).
    destruct (Hfirst n) as (m & Hrun & Hm).
    { rewrite Hn. now apply interim_settled. }
    destruct (H m) as [c' Hc'].
    exists (S m), c'. eexists. rewrite Hrun, Hc'. reflexivity.
  - replace fuel with (fuel + 0)%nat at 1 by lia.
    rewrite waitForConfirmation_rounds; [reflexivity |].
    intros k _. destruct (H k) as (c & -> & Hc). now apply interim_ok.
  - apply suspensions_pollRounds.
Qed.

(* ===================================================================== *)
(** * hexToByte *)
(* ===================================================================== *)

Lemma isHexDigit_hexChars (c : ascii) : isHexDigit c = true -> In c hexChars.
Proof.
  destruct c as [[] [] [] [] [] [] [] []]; intros H;
    try discriminate H; clear H; simpl;
    repeat (first [left; reflexivity | right]).
Qed.

(** What the body of the loop stores for two hex digits. *)
Lemma parseInt_hex_pair (a b : ascii) :
  isHexDigit a = true -> isHexDigit b = true ->
  ToUint8 (parseInt (String a (String b EmptyString)) 16)
  = 16 * hexValue a + hexValue b
  /\ 0 <= 16 * hexValue a + hexValue b < 256
  /\ hexValues (toHex [16 * hexValue a + hexValue b]) = [hexValue a; hexValue b].
Proof.
  intros Ha Hb.
  apply isHexDigit_hexChars in Ha. apply isHexDigit_hexChars in Hb.
  simpl in Ha, Hb.
  repeat (destruct Ha as [<- | Ha]; [| try contradiction]);
    repeat (destruct Hb as [<- | Hb]; [| try contradiction]);
    vm_compute; repeat split; congruence.
Qed.

Lemma toHex_lower_pair (a b : ascii) :
  isLowerHexDigit a = true -> isLowerHexDigit b = true ->
  toHex [16 * hexValue a + hexValue b] = String a (String b EmptyString).
Proof.
  destruct a as [[] [] [] [] [] [] [] []]; intros Ha; try discriminate Ha;
    clear Ha;
    destruct b as [[] [] [] [] [] [] [] []]; intros Hb; try discriminate Hb;
    reflexivity.
Qed.

Lemma toHexUpper_pair (a b : ascii) :
  isUpperHexDigit a = true -> isUpperHexDigit b = true ->
  toHexUpper [16 * hexValue a + hexValue b] = String a (String b EmptyString).
Proof.
  destruct a as [[] [] [] [] [] [] [] []]; intros Ha; try discriminate Ha;
    clear Ha;
    destruct b as [[] [] [] [] [] [] [] []]; intros Hb; try discriminate Hb;
    reflexivity.
Qed.

Lemma writtenByteReadsBack_all :
  forallb (fun n => writtenByteReadsBack (Z.of_nat n)) (seq 0 256) = true.
Proof. vm_compute. reflexivity. Qed.

Lemma writtenByteReadsBack_byte (b : Z) :
  0 <= b < 256 -> writtenByteReadsBack b = true.
Proof.
  intros Hb. pose proof writtenByteReadsBack_all as Hall.
  rewrite forallb_forall in Hall.
  rewrite <- (Z2Nat.id b) by lia. apply Hall. apply in_seq. lia.
Qed.

Lemma set_index_app (l1 l2 : list Z) (x b : Z) :
  set_index (l1 ++ x :: l2) (List.length l1) b = l1 ++ b :: l2.
Proof. induction l1 as [| y l1 IH]; simpl; [reflexivity | now rewrite IH]. Qed.

(** The loop that fills the array position by position computes the list
    of the values stored. *)
Lemma store_loop (f : nat -> option Z) (n k : nat) :
  (k <= n)%nat ->
  fold_left (fun byteArray i => store byteArray i (f i)) (seq 0 k)
    (new_Uint8Array n)
  = map (fun i => ToUint8 (f i)) (seq 0 k) ++ repeat 0 (n - k).
Proof.
  unfold new_Uint8Array. induction k as [| k IH]; intros Hk.
  - simpl. now rewrite Nat.sub_0_r.
  - rewrite seq_S, fold_left_app, IH by lia. simpl.
    replace (n - k)%nat with (S (n - S k)) by lia. simpl.
    unfold store.
    pose proof (set_index_app (map (fun i => ToUint8 (f i)) (seq 0 k))
                  (repeat 0 (n - S k)) 0 (ToUint8 (f k))) as E.
    rewrite length_map, length_seq in E.
    rewrite E, map_app, <- app_assoc. reflexivity.
Qed.

Lemma hexToByte_even (hexString : string) :
  Nat.even (String.length hexString) = true ->
  hexToByte hexString
  = Ok (map (fun i => ToUint8 (parseInt (substr hexString (i * 2) 2) 16))
          (seq 0 (Nat.div (String.length hexString) 2))).
Proof.
  intros He. unfold hexToByte.
  assert (Hm : Nat.modulo (String.length hexString) 2 = O).
  { apply Nat.even_spec in He. destruct He as [m ->].
    rewrite Nat.mul_comm. apply Nat.Div0.mod_mul. }
  rewrite Hm. simpl negb. cbv iota.
  rewrite store_loop by lia. now rewrite Nat.sub_diag, app_nil_r.
Qed.

Lemma hexToByte_odd (hexString : string) :
  Nat.even (String.length hexString) = false ->
  hexToByte hexString = Throw oddLength.
Proof.
  intros Ho. unfold hexToByte.
  assert (Hm : Nat.modulo (String.length hexString) 2 = 1%nat).
  { rewrite <- Nat.negb_odd in Ho. apply negb_false_iff, Nat.odd_spec in Ho.
    destruct Ho as [m ->].
    rewrite Nat.add_comm, Nat.mul_comm, Nat.Div0.mod_add. reflexivity. }
  now rewrite Hm.
Qed.

(** Strings of even length, two characters at a time. *)
Lemma string_pairs_ind (P : string -> Prop) :
  P EmptyString ->
  (forall a b r, P r -> P (String a (String b r))) ->
  forall s, Nat.even (String.length s) = true -> P s.
Proof.
  intros H0 H2.
  fix IH 1. intros [| a [| b r]] He.
  - exact H0.
  - discriminate He.
  - apply H2. apply IH. exact He.
Qed.

Lemma map_pairs (a b : ascii) (r : string) (g : string -> Z) :
  map (fun i => g (substr (String a (String b r)) (i * 2) 2))
    (seq 0 (Nat.div (String.length (String a (String b r))) 2))
  = g (String a (String b EmptyString))
    :: map (fun i => g (substr r (i * 2) 2)) (seq 0 (Nat.div (String.length r) 2)).
Proof.
  change (String.length (String a (String b r))) with (2 + String.length r)%nat.
  replace (Nat.div (2 + String.length r) 2) with (S (Nat.div (String.length r) 2)).
  - simpl seq. simpl map. f_equal.
    + unfold substr. simpl. now destruct r.
    + rewrite <- seq_shift, map_map. reflexivity.
  - replace (2 + String.length r)%nat with (String.length r + 1 * 2)%nat by lia.
    rewrite Nat.div_add by lia. lia.
Qed.

Lemma hexToByte_bytesOfHex (s : string) :
  Nat.even (String.length s) = true -> allHexDigits s = true ->
  map (fun i => ToUint8 (parseInt (substr s (i * 2) 2) 16))
    (seq 0 (Nat.div (String.length s) 2))
  = bytesOfHex s
  /\ Forall (fun b => 0 <= b < 256) (bytesOfHex s)
  /\ hexValues (toHex (bytesOfHex s)) = hexValues s
  /\ List.length (bytesOfHex s) = Nat.div (String.length s) 2.
Proof.
  intros He. pattern s. revert s He. apply string_pairs_ind.
  - intros _. repeat split. constructor.
  - intros a b r IH Hall. simpl in Hall.
    apply andb_prop in Hall as [Ha Hall]. apply andb_prop in Hall as [Hb Hall].
    destruct (IH Hall) as (Hmap & Hrange & Hround & Hlen).
    destruct (parseInt_hex_pair a b Ha Hb) as (Hbyte & Hb256 & Hpair).
    repeat split.
    + rewrite (map_pairs a b r (fun p => ToUint8 (parseInt p 16))).
      rewrite Hbyte, Hmap. reflexivity.
    + constructor; assumption.
    + simpl bytesOfHex. simpl toHex. simpl in Hpair.
      injection Hpair as H1 H2. simpl hexValues. now rewrite H1, H2, Hround.
    + change (String.length (String a (String b r)))
        with (2 + String.length r)%nat.
      replace (2 + String.length r)%nat with (String.length r + 1 * 2)%nat by lia.
      rewrite Nat.div_add by lia. simpl List.length. lia.
Qed.

Lemma toHex_lower (s : string) :
  Nat.even (String.length s) = true -> allLowerHexDigits s = true ->
  toHex (bytesOfHex s) = s.
Proof.
  intros He. pattern s. revert s He. apply string_pairs_ind.
  - reflexivity.
  - intros a b r IH Hall. simpl in Hall.
    apply andb_prop in Hall as [Ha Hall]. apply andb_prop in Hall as [Hb Hall].
    pose proof (toHex_lower_pair a b Ha Hb) as Hpair.
    simpl bytesOfHex. simpl toHex. simpl in Hpair.
    injection Hpair as H1 H2. now rewrite H1, H2, (IH Hall).
Qed.

Lemma toHexUpper_upper (s : string) :
  Nat.even (String.length s) = true -> allUpperHexDigits s = true ->
  toHexUpper (bytesOfHex s) = s.
Proof.
  intros He. pattern s. revert s He. apply string_pairs_ind.
  - reflexivity.
  - intros a b r IH Hall. simpl in Hall.
    apply andb_prop in Hall as [Ha Hall]. apply andb_prop in Hall as [Hb Hall].
    pose proof (toHexUpper_pair a b Ha Hb) as Hpair.
    simpl bytesOfHex. simpl toHexUpper. simpl in Hpair.
    injection Hpair as H1 H2. now rewrite H1, H2, (IH Hall).
Qed.

(** The hex writing of bytes is a string [hexToByte] accepts, and it
    denotes the bytes. *)
Lemma toHex_reads_back (bytes : list Z) :
  Forall (fun b => 0 <= b < 256) bytes ->
  Nat.even (String.length (toHex bytes)) = true
  /\ allHexDigits (toHex bytes) = true
  /\ bytesOfHex (toHex bytes) = bytes.
Proof.
  induction 1 as [| b bytes Hb _ (He & Hall & Hbytes)]; [repeat split |].
  pose proof (writtenByteReadsBack_byte b Hb) as Hw.
  unfold writtenByteReadsBack in Hw.
  apply andb_prop in Hw as [Hw Hvalue]. apply andb_prop in Hw as [Hhigh Hlow].
  simpl toHex. repeat split.
  - exact He.
  - simpl. now rewrite Hhigh, Hlow, Hall.
  - simpl bytesOfHex. f_equal; [now apply Z.eqb_eq | exact Hbytes].
Qed.

(** C9. For a string of hex digits of even length, [hexToByte] returns
    the bytes the string denotes, one for each two digits and each below
    256; writing each byte back as two hex digits gives the digits of the
    input, and the input itself when its letters are all lower-case or all
    upper-case and the bytes are written in that case. The other way round,
    the hex writing of any bytes is read back as those bytes. For a string
    of odd length [hexToByte] throws, whatever the characters, and returns
    no array. *)
Theorem hexToByte_round_trip :
  (forall hexString,
      Nat.even (String.length hexString) = true ->
      allHexDigits hexString = true ->
      hexToByte hexString = Ok (bytesOfHex hexString)
      /\ List.length (bytesOfHex hexString) = Nat.div (String.length hexString) 2
      /\ Forall (fun b => 0 <= b < 256) (bytesOfHex hexString)
      /\ hexValues (toHex (bytesOfHex hexString)) = hexValues hexString
      /\ (allLowerHexDigits hexString = true ->
          toHex (bytesOfHex hexString) = hexString)
      /\ (allUpperHexDigits hexString = true ->
          toHexUpper (bytesOfHex hexString) = hexString))
  /\ (forall bytes,
        Forall (fun b => 0 <= b < 256) bytes ->
        hexToByte (toHex bytes) = Ok bytes)
  /\ (forall hexString,
        Nat.even (String.length hexString) = false ->
        hexToByte hexString = Throw oddLength).
Proof.
  split; [| split].
  - intros s He Hall.
    destruct (hexToByte_bytesOfHex s He Hall) as (Hmap & Hrange & Hround & Hlen).
    repeat split; try assumption.
    + now rewrite hexToByte_even, Hmap.
    + now apply toHex_lower.
    + now apply toHexUpper_upper.
  - intros bytes Hrange.
    destruct (toHex_reads_back bytes Hrange) as (He & Hall & Hbytes).
    destruct (hexToByte_bytesOfHex (toHex bytes) He Hall) as (Hmap & _).
    now rewrite hexToByte_even, Hmap, Hbytes.
  - apply hexToByte_odd.
Qed.

Lemma hexToByte_round_trip_witness :
  hexToByte "0aff10" = Ok [10; 255; 16]
  /\ toHex [10; 255; 16] = "0aff10"%string
  /\ toHexUpper [10; 255; 16] = "0AFF10"%string
  /\ hexToByte "abc" = Throw oddLength.
Proof.
  destruct (proj1 hexToByte_round_trip "0aff10"%string eq_refl eq_refl)
    as (H1 & _ & _ & _ & H5 & _).
  destruct (proj1 hexToByte_round_trip "0AFF10"%string eq_refl eq_refl)
    as (_ & _ & _ & _ & _ & H6).
  split; [exact H1 | split; [exact (H5 eq_refl) | split]].
  - exact (H6 eq_refl).
  - exact (proj2 (proj2 hexToByte_round_trip) "abc"%string eq_refl).
Defined.

(* ===================================================================== *)
(** * The deadline of the router calls *)
(* ===================================================================== *)

Lemma getCurrentTimePlusOneHour_run (w : World) :
  getCurrentTimePlusOneHour w = (Resolved (deadlineAt (now w)), w).
Proof. reflexivity. Qed.

Lemma deadlineAt_seconds (t : Z) : deadlineAt t = t / 1000 + 36000.
Proof.
  unfold deadlineAt. replace 36000000 with (36000 * 1000) by reflexivity.
  apply Z.div_add. discriminate.
Qed.

(** On the sample times the doubles of the source give the integer the
    model computes. *)
Lemma getCurrentTimePlusOneHour_doubles_agree :
  forallb
    (fun t =>
       match getCurrentTimePlusOneHour_doubles t with
       | Some seconds => seconds =? deadlineAt t
       | None => false
       end) sampleTimes
  = true.
Proof. vm_compute. reflexivity. Qed.

(** A call on the router, from the fetched account on: the envelope is
    built, handed to [prepareTransaction], and the rest only adds events. *)
Lemma router_call_prepares (fuel : nat) (this : TxMaker) (account : Account)
    (sourceKeypair : Keypair) (op : Operation) (passphrase : string) (w : World) :
  getNetworkPassphrase (network this) = Ok passphrase ->
  exists rest,
    log (snd
      ((transaction <- buildTx this account sourceKeypair [op] ;;
        preparedTransaction <- prepareTransaction (sorobanServer this) transaction ;;
        tryCatch
          (txRes <- sendTransaction (sorobanServer this)
                      (sign preparedTransaction sourceKeypair) ;;
           confirmation <- waitForConfirmation fuel (hash txRes)
                             (sorobanServer this) ;;
           ret (Confirmation confirmation))
          (fun error =>
             showErrorResultCodes error ;;
             console_error [LError error] ;;
             ret Undefined)) w))
    = log w
      ++ EvPrepareTransaction
           (builtEnvelope passphrase (now w) account sourceKeypair [op])
      :: rest.
Proof.
  intros Hpp.
  rewrite (bind_resolved _ _ _ _ _ (buildTx_ok _ _ _ _ _ _ Hpp)).
  unfold prepareTransaction.
  destruct (soroban_prepareTransaction (sorobanServer this)
              (builtEnvelope passphrase (now w) account sourceKeypair [op]))
    as [prepared | e].
  - rewrite (bind_resolved _ _ _ _ _ (call_ok _ _ _ _ eq_refl)).
    match goal with
    | |- context [snd (?c (logged w ?evs))] =>
        assert (Htail : appendOnly c) by append_only;
        destruct (Htail (logged w evs)) as [rest Hrest]
    end.
    exists rest. rewrite Hrest. simpl. now rewrite <- app_assoc.
  - rewrite (bind_rejected _ _ _ _ _ (call_throw _ _ _ _ eq_refl)).
    exists []. reflexivity.
Qed.

(** C4. At the time [t] of the clock, in milliseconds, the deadline is
    [floor((t + 36000000) / 1000)], which is the current second plus 36000
    seconds: ten hours. It is the last argument of the call each of the
    three router methods hands to [prepareTransaction]. *)
Theorem router_deadline_is_ten_hours (fuel : nat) (this : TxMaker) (w : World)
    (passphrase : string) :
  getNetworkPassphrase (network this) = Ok passphrase ->
  getCurrentTimePlusOneHour w = (Resolved ((now w + 36000000) / 1000), w)
  /\ (now w + 36000000) / 1000 = now w / 1000 + 10 * 3600
  /\ (forall args account,
        soroban_getAccount (sorobanServer this)
          (publicKey (addLiquiditySoroswapArgs.source args)) = Ok account ->
        exists tx rest,
          log (snd (addLiquiditySoroswap fuel this args w))
          = log w
            ++ EvGetAccount (publicKey (addLiquiditySoroswapArgs.source args))
            :: EvPrepareTransaction tx :: rest
          /\ tx_operations tx
             = [OpInvokeContractFunction (routerContractAddress this)
                  "add_liquidity" (addLiquidityParams args (deadlineAt (now w)))]
          /\ last (addLiquidityParams args (deadlineAt (now w))) (ScvU64 0)
             = ScvU64 ((now w + 36000000) / 1000))
  /\ (forall args account,
        soroban_getAccount (sorobanServer this)
          (publicKey (removeLiquiditySoroswapArgs.source args)) = Ok account ->
        exists tx rest,
          log (snd (removeLiquiditySoroswap fuel this args w))
          = log w
            ++ EvGetAccount (publicKey (removeLiquiditySoroswapArgs.source args))
            :: EvPrepareTransaction tx :: rest
          /\ tx_operations tx
             = [OpInvokeContractFunction (routerContractAddress this)
                  "remove_liquidity"
                  (removeLiquidityParams args (deadlineAt (now w)))]
          /\ last (removeLiquidityParams args (deadlineAt (now w))) (ScvU64 0)
             = ScvU64 ((now w + 36000000) / 1000))
  /\ (forall args account,
        soroban_getAccount (sorobanServer this)
          (publicKey (swapArgs.source args)) = Ok account ->
        exists tx rest,
          log (snd (swapExactTokensForTokensSoroswap fuel this args w))
          = log w
            ++ EvGetAccount (publicKey (swapArgs.source args))
            :: EvPrepareTransaction tx :: rest
          /\ tx_operations tx
             = [OpInvokeContractFunction (routerContractAddress this)
                  "swap_exact_tokens_for_tokens"
                  (swapParams args (deadlineAt (now w)))]
          /\ last (swapParams args (deadlineAt (now w))) (ScvU64 0)
             = ScvU64 ((now w + 36000000) / 1000)).
Proof.
  intros Hpp. split; [reflexivity |].
  split; [apply deadlineAt_seconds |].
  repeat split.
  - intros args account Hacc. unfold addLiquiditySoroswap, getAccount.
    rewrite (bind_resolved _ _ _ _ _ (call_ok _ _ _ _ Hacc)).
    rewrite (bind_resolved _ _ _ _ _ (getCurrentTimePlusOneHour_run _)).
    destruct (router_call_prepares fuel this account
                (Keypair_fromSecret (privateKey (addLiquiditySoroswapArgs.source args)))
                (Contract_call (routerContractAddress this) "add_liquidity"
                   (addLiquidityParams args (deadlineAt (now w))))
                passphrase
                (logged w [EvGetAccount
                             (publicKey (addLiquiditySoroswapArgs.source args))])
                Hpp) as [rest Hrest].
    simpl now in *. rewrite Hrest.
    eexists. exists rest. simpl. rewrite <- app_assoc. simpl.
    repeat split.
  - intros args account Hacc. unfold removeLiquiditySoroswap, getAccount.
    rewrite (bind_resolved _ _ _ _ _ (call_ok _ _ _ _ Hacc)).
    rewrite (bind_resolved _ _ _ _ _ (getCurrentTimePlusOneHour_run _)).
    destruct (router_call_prepares fuel this account
                (Keypair_fromSecret
                   (privateKey (removeLiquiditySoroswapArgs.source args)))
                (Contract_call (routerContractAddress this) "remove_liquidity"
                   (removeLiquidityParams args (deadlineAt (now w))))
                passphrase
                (logged w [EvGetAccount
                             (publicKey (removeLiquiditySoroswapArgs.source args))])
                Hpp) as [rest Hrest].
    simpl now in *. rewrite Hrest.
    eexists. exists rest. simpl. rewrite <- app_assoc. simpl.
    repeat split.
  - intros args account Hacc. unfold swapExactTokensForTokensSoroswap, getAccount.
    rewrite (bind_resolved _ _ _ _ _ (call_ok _ _ _ _ Hacc)).
    rewrite (bind_resolved _ _ _ _ _ (getCurrentTimePlusOneHour_run _)).
    destruct (router_call_prepares fuel this account
                (Keypair_fromSecret (privateKey (swapArgs.source args)))
                (Contract_call (routerContractAddress this)
                   "swap_exact_tokens_for_tokens"
                   (swapParams args (deadlineAt (now w))))
                passphrase
                (logged w [EvGetAccount (publicKey (swapArgs.source args))])
                Hpp) as [rest Hrest].
    simpl now in *. rewrite Hrest.
    eexists. exists rest. simpl. rewrite <- app_assoc. simpl.
    repeat split.
Qed.

(* ===================================================================== *)
(** * The price band of liquidityPoolDeposit *)
(* ===================================================================== *)

Lemma nearestScaled_nearest (m : positive) (e : Z) :
  nearestTo (nearestScaled 7 m e) m e.
Proof.
  unfold nearestTo, nearestScaled.
  change (Z.of_nat 7) with 7.
  destruct e as [| p | k]; try reflexivity.
  set (D := 2 ^ Zpos k). set (x := Zpos m * 10 ^ 7).
  assert (HD : 0 < D) by (apply Z.pow_pos_nonneg; lia).
  replace (2 ^ (Zpos k + 1)) with (2 * D)
    by (unfold D; rewrite Z.pow_add_r by lia; lia).
  pose proof (Z.div_mod (2 * x + D) (2 * D) ltac:(lia)) as Hdm.
  pose proof (Z.mod_pos_bound (2 * x + D) (2 * D) ltac:(lia)) as Hb.
  nia.
Qed.

(** What [toFixed(7)] writes for a positive finite double below [10^21]. *)
Lemma toFixed_7_nearest (m : positive) (e : Z) :
  atLeast1e21 m e = false ->
  exists n,
    toFixed (S754_finite false m e) 7 = FixedText (fixedDigits 7 n)
    /\ nearestTo n m e.
Proof.
  intros H. exists (nearestScaled 7 m e). split.
  - unfold toFixed. now rewrite H.
  - apply nearestScaled_nearest.
Qed.

(** The transaction [liquidityPoolDeposit] submits. *)
Lemma liquidityPoolDeposit_submits (fuel : nat) (this : TxMaker)
    (source : Account) (signer : Keypair) (poolId maxReserveA maxReserveB : string)
    (w : World) (passphrase : string) :
  getNetworkPassphrase (network this) = Ok passphrase ->
  exists rest,
    log (snd (liquidityPoolDeposit fuel this source signer poolId
                maxReserveA maxReserveB w))
    = log w
      ++ EvSubmitTransaction
           (builtEnvelope passphrase (now w) source signer
              [OpLiquidityPoolDeposit (PoolIdHex poolId) maxReserveA maxReserveB
                 (toFixed (minPrice maxReserveA maxReserveB) 7)
                 (toFixed (maxPrice maxReserveA maxReserveB) 7)])
      :: rest.
Proof.
  intros Hpp. unfold liquidityPoolDeposit.
  match goal with
  | |- context [tryCatch ?c ?h] =>
      assert (Hh : forall e, appendOnly (h e)) by (intro; append_only);
      set (handler := h) in *
  end.
  unfold tryCatch.
  rewrite (bind_resolved _ _ _ _ _ (buildTx_ok _ _ _ _ _ _ Hpp)).
  unfold submitTransaction.
  destruct (horizon_submitTransaction (horizonServer this)
              (builtEnvelope passphrase (now w) source signer
                 [OpLiquidityPoolDeposit (PoolIdHex poolId) maxReserveA maxReserveB
                    (toFixed (minPrice maxReserveA maxReserveB) 7)
                    (toFixed (maxPrice maxReserveA maxReserveB) 7)]))
    as [txRes | e].
  - rewrite (bind_resolved _ _ _ _ _ (call_ok _ _ _ _ eq_refl)).
    match goal with
    | |- context [(?c (logged w ?evs))] =>
        assert (Htail : appendOnly c) by append_only;
        pose proof (Htail (logged w evs)) as [rest Hrest];
        destruct (c (logged w evs)) as [[confirmation | e |] w']
    end; simpl in Hrest.
    + exists rest. simpl. now rewrite Hrest, <- app_assoc.
    + destruct (Hh e w') as [rest' Hrest'].
      exists (rest ++ rest'). rewrite Hrest', Hrest, <- !app_assoc. reflexivity.
    + exists rest. simpl. now rewrite Hrest, <- app_assoc.
  - rewrite (bind_rejected _ _ _ _ _ (call_throw _ _ _ _ eq_refl)).
    destruct (Hh e (logged w [EvSubmitTransaction
      (builtEnvelope passphrase (now w) source signer
         [OpLiquidityPoolDeposit (PoolIdHex poolId) maxReserveA maxReserveB
            (toFixed (minPrice maxReserveA maxReserveB) 7)
            (toFixed (maxPrice maxReserveA maxReserveB) 7)])])) as [rest Hrest].
    exists rest. rewrite Hrest. simpl. now rewrite <- app_assoc.
Qed.

(** C3, as the claim states it, fails: for the reserves 1000000001 and 1
    the code writes the upper bound 1100000001.0999999, where
    [price*(1+0.1)] gives 1100000001.1000001 in doubles and
    1100000001.1000000 in exact arithmetic. *)
Lemma price_band_counterexample :
  toFixed (maxPrice "1000000001" "1") 7 = FixedText "1100000001.0999999"
  /\ toFixed (claimedMaxPrice "1000000001" "1") 7 = FixedText "1100000001.1000001"
  /\ exactBandText 11 10 1000000001 1 = "1100000001.1000000"%string
  /\ ~ (forall maxReserveA maxReserveB,
          positiveNumeric maxReserveA = true ->
          positiveNumeric maxReserveB = true ->
          toFixed (minPrice maxReserveA maxReserveB) 7
          = toFixed (claimedMinPrice maxReserveA maxReserveB) 7
          /\ toFixed (maxPrice maxReserveA maxReserveB) 7
             = toFixed (claimedMaxPrice maxReserveA maxReserveB) 7).
Proof.
  split; [vm_compute; reflexivity |].
  split; [vm_compute; reflexivity |].
  split; [vm_compute; reflexivity |].
  intros H.
  destruct (H "1000000001"%string "1"%string) as [_ Hmax];
    [vm_compute; reflexivity .. |].
  vm_compute in Hmax. discriminate Hmax.
Qed.

(** C3, amended. On a supported network the transaction
    [liquidityPoolDeposit] submits carries one deposit operation, whose
    bounds are [toFixed(7)] of the doubles [p - p*0.1] and [p + p*0.1] for
    the double [p = Number(maxReserveA) / Number(maxReserveB)]; for a
    positive finite double below [10^21], [toFixed(7)] writes the multiple
    of [10^-7] nearest to it, the larger of two; and for the reserves 200
    and 100 the price is 2, the lower bound 1.8000000 and the upper bound
    2.2000000. *)
Theorem liquidityPoolDeposit_price_band (fuel : nat) (this : TxMaker)
    (source : Account) (signer : Keypair) (poolId maxReserveA maxReserveB : string)
    (w : World) (passphrase : string) :
  getNetworkPassphrase (network this) = Ok passphrase ->
  (exists tx rest,
      log (snd (liquidityPoolDeposit fuel this source signer poolId
                  maxReserveA maxReserveB w))
      = log w ++ EvSubmitTransaction tx :: rest
      /\ tx_operations tx
         = [OpLiquidityPoolDeposit (PoolIdHex poolId) maxReserveA maxReserveB
              (toFixed
                 (f64_sub
                    (f64_div (Number maxReserveA) (Number maxReserveB))
                    (f64_mul
                       (f64_div (Number maxReserveA) (Number maxReserveB))
                       lit_0_1)) 7)
              (toFixed
                 (f64_add
                    (f64_div (Number maxReserveA) (Number maxReserveB))
                    (f64_mul
                       (f64_div (Number maxReserveA) (Number maxReserveB))
                       lit_0_1)) 7)])
  /\ (forall m e,
        atLeast1e21 m e = false ->
        exists n,
          toFixed (S754_finite false m e) 7 = FixedText (fixedDigits 7 n)
          /\ nearestTo n m e)
  /\ exactPrice "200" "100" = f64_of_Z 2
  /\ toFixed (minPrice "200" "100") 7 = FixedText "1.8000000"
  /\ toFixed (maxPrice "200" "100") 7 = FixedText "2.2000000".
Proof.
  intros Hpp. split; [| split; [| split; [| split]]].
  - destruct (liquidityPoolDeposit_submits fuel this source signer poolId
                maxReserveA maxReserveB w passphrase Hpp) as [rest Hrest].
    eexists. exists rest. split; [exact Hrest | reflexivity].
  - apply toFixed_7_nearest.
  - vm_compute. reflexivity.
  - vm_compute. reflexivity.
  - vm_compute. reflexivity.
Qed.

(* ===================================================================== *)
(** * The facade and the errors it meets *)
(* ===================================================================== *)

(** The end of the [catch] of the router methods. *)
Lemma router_catch_undefined (e : JsError) (w : World) :
  fst ((showErrorResultCodes e ;; console_error [LError e] ;; ret Undefined) w)
  = Resolved Undefined.
Proof.
  destruct (showErrorResultCodes_resolves e w) as [evs H].
  now rewrite (bind_resolved _ _ _ _ _ H).
Qed.

(** The end of the [catch] of [mintTokens]. *)
Lemma mint_catch_error_object (e : JsError) (w : World) :
  fst ((showErrorResultCodes e ;; console_log [LStr "error:"; LError e] ;;
        ret (ErrorObject "error" e)) w)
  = Resolved (ErrorObject "error" e).
Proof.
  destruct (showErrorResultCodes_resolves e w) as [evs H].
  now rewrite (bind_resolved _ _ _ _ _ H).
Qed.

(** C7, on the code. With a Soroban server that prepares every
    transaction and rejects every [sendTransaction] with [e]:
    [addLiquiditySoroswap] resolves to [undefined], where [mintTokens], on
    the same failure, resolves to the object [{ status: "error", error }].
    And a rejection of [loadAccount], which [payment] awaits before its
    [try], rejects the promise [payment] returns. *)
Theorem facade_error_conversion_differs (fuel : nat) (this : TxMaker)
    (w : World) (e : JsError) (passphrase : string) :
  getNetworkPassphrase (network this) = Ok passphrase ->
  (forall publicKey, exists account,
      soroban_getAccount (sorobanServer this) publicKey = Ok account) ->
  (forall tx, exists prepared,
      soroban_prepareTransaction (sorobanServer this) tx = Ok prepared) ->
  (forall tx, soroban_sendTransaction (sorobanServer this) tx = Throw e) ->
  (forall publicKey, horizon_loadAccount (horizonServer this) publicKey = Throw e) ->
  (forall args,
      fst (addLiquiditySoroswap fuel this args w) = Resolved Undefined)
  /\ (forall args,
        fst (mintTokens fuel this args w) = Resolved (ErrorObject "error" e))
  /\ (forall args, fst (payment fuel this args w) = Rejected e).
Proof.
  intros Hpp Hacc Hprep Hsend Hload. repeat split; intros args.
  - unfold addLiquiditySoroswap, getAccount.
    destruct (Hacc (publicKey (addLiquiditySoroswapArgs.source args)))
      as [account Ha].
    rewrite (bind_resolved _ _ _ _ _ (call_ok _ _ _ _ Ha)).
    rewrite (bind_resolved _ _ _ _ _ (getCurrentTimePlusOneHour_run _)).
    rewrite (bind_resolved _ _ _ _ _ (buildTx_ok _ _ _ _ _ _ Hpp)).
    unfold prepareTransaction.
    match goal with
    | |- context [soroban_prepareTransaction _ ?tx] =>
        destruct (Hprep tx) as [prepared Hp]
    end.
    rewrite (bind_resolved _ _ _ _ _ (call_ok _ _ _ _ Hp)).
    erewrite tryCatch_rejected.
    + apply router_catch_undefined.
    + apply bind_rejected. unfold sendTransaction. apply call_throw, Hsend.
  - unfold mintTokens, getAccount.
    destruct (Hacc (publicKey (mintTokensArgs.source args))) as [account Ha].
    rewrite (bind_resolved _ _ _ _ _ (call_ok _ _ _ _ Ha)).
    rewrite (bind_resolved _ _ _ _ _ (buildTx_ok _ _ _ _ _ _ Hpp)).
    unfold prepareTransaction.
    match goal with
    | |- context [soroban_prepareTransaction _ ?tx] =>
        destruct (Hprep tx) as [prepared Hp]
    end.
    rewrite (bind_resolved _ _ _ _ _ (call_ok _ _ _ _ Hp)).
    erewrite tryCatch_rejected.
    + apply mint_catch_error_object.
    + apply bind_rejected. unfold sendTransaction. apply call_throw, Hsend.
  - unfold payment, loadAccount.
    now rewrite (bind_rejected _ _ _ _ _ (call_throw _ _ _ _ (Hload _))).
Qed.

(** The [catch] of the methods that answer with the error object always
    resolves to it. *)
Lemma catch_error_object (e : JsError) (w : World) :
  fst ((console_error [LStr "ERROR!"; LError e] ;;
        showErrorResultCodes e ;;
        ret (ErrorObject "error" e)) w)
  = Resolved (ErrorObject "error" e).
Proof.
  unfold console_error. unfold bind at 1. unfold perform. cbv beta iota.
  destruct (showErrorResultCodes_resolves e
              (logged w [EvConsoleError [LStr "ERROR!"; LError e]])) as [evs H].
  unfold logged in H at 1. now rewrite (bind_resolved _ _ _ _ _ H).
Qed.

(** X1. [liquidityPoolDeposit] keeps the building of the envelope, the
    submission and the polling inside its [try]: whatever the servers do
    and whatever the configured network, its promise is never rejected and
    never resolves to [undefined]. It resolves to a confirmation whose
    status is not NOT_FOUND or to the object [{ status: "error", error }],
    or it is still pending. *)
Theorem liquidityPoolDeposit_never_rejects (fuel : nat) (this : TxMaker)
    (source : Account) (signer : Keypair) (poolId maxReserveA maxReserveB : string)
    (w : World) :
  (exists confirmation,
      fst (liquidityPoolDeposit fuel this source signer poolId
             maxReserveA maxReserveB w)
      = Resolved (Confirmation confirmation)
      /\ status confirmation <> NOT_FOUND)
  \/ (exists e,
        fst (liquidityPoolDeposit fuel this source signer poolId
               maxReserveA maxReserveB w)
        = Resolved (ErrorObject "error" e))
  \/ fst (liquidityPoolDeposit fuel this source signer poolId
            maxReserveA maxReserveB w)
     = Pending.
Proof.
  unfold liquidityPoolDeposit, tryCatch.
  assert (Hcatch : forall e w',
    fst ((console_error [LStr "ERROR!"; LError e] ;;
          showErrorResultCodes e ;;
          ret (ErrorObject "error" e)) w')
    = Resolved (ErrorObject "error" e)) by apply catch_error_object.
  destruct (getNetworkPassphrase (network this)) as [passphrase | e0] eqn:Hpp.
  - rewrite (bind_resolved _ _ _ _ _ (buildTx_ok _ _ _ _ _ _ Hpp)).
    unfold submitTransaction.
    match goal with
    | |- context [horizon_submitTransaction ?server ?tx] =>
        destruct (horizon_submitTransaction server tx) as [txRes | e]
    end.
    + rewrite (bind_resolved _ _ _ _ _ (call_ok _ _ _ _ eq_refl)).
      match goal with
      | |- context [bind (waitForConfirmation ?f ?h ?srv) ?k ?w1] =>
          destruct (waitForConfirmation f h srv w1)
            as [[confirmation | e |] w'] eqn:Hwait
      end.
      * rewrite (bind_resolved _ _ _ _ _ Hwait).
        left. exists confirmation. split; [reflexivity |].
        eapply waitForConfirmation_never_interim; exact Hwait.
      * rewrite (bind_rejected _ _ _ _ _ Hwait).
        right. left. exists e. apply Hcatch.
      * rewrite (bind_pending _ _ _ _ Hwait).
        right. right. reflexivity.
    + rewrite (bind_rejected _ _ _ _ _ (call_throw _ _ _ _ eq_refl)).
      right. left. exists e. apply Hcatch.
  - rewrite (bind_rejected _ _ _ _ _ (buildTx_unsupported _ _ _ _ _ _ Hpp)).
    right. left. exists e0. apply Hcatch.
Qed.

(* ===================================================================== *)
(** * Concrete runs *)
(* ===================================================================== *)

Lemma waitForConfirmation_first_settled_witness :
  waitForConfirmation 3 "9f2c" twiceThenSuccess sampleWorld
  = (Resolved succeeded,
     after sampleWorld 2000
       [EvGetTransaction "9f2c"; EvSleep 1000;
        EvGetTransaction "9f2c"; EvSleep 1000;
        EvGetTransaction "9f2c"])
  /\ suspensions
       [EvGetTransaction "9f2c"; EvSleep 1000;
        EvGetTransaction "9f2c"; EvSleep 1000;
        EvGetTransaction "9f2c"] = 2%nat.
Proof.
  destruct (waitForConfirmation_first_settled twiceThenSuccess "9f2c"
              sampleWorld 2 3 succeeded) as (Hrun & Hcount & _).
  - intros [| [| k]] Hk; [exists notFound; split; reflexivity .. | lia].
  - reflexivity.
  - discriminate.
  - lia.
  - split; [exact Hrun | exact Hcount].
Defined.

Lemma waitForConfirmation_unbounded_witness :
  waitForConfirmation 40 "9f2c" neverFound sampleWorld
  = (Pending, after sampleWorld 40000 (pollRounds "9f2c" 40)).
Proof.
  refine (proj1 (proj2 (proj2
    (waitForConfirmation_unbounded neverFound "9f2c" sampleWorld)) _ 40%nat)).
  intros k. exists notFound. split; reflexivity.
Defined.

Lemma liquidityPoolDeposit_price_band_witness :
  exists tx rest,
    log (snd (liquidityPoolDeposit 3 sampleTxMaker
                {| accountId := "GALICE"; sequence := 7 |}
                (Keypair_fromSecret "SALICE") "dd7b1ab8" "200" "100" sampleWorld))
    = log sampleWorld ++ EvSubmitTransaction tx :: rest
    /\ tx_operations tx
       = [OpLiquidityPoolDeposit (PoolIdHex "dd7b1ab8") "200" "100"
            (FixedText "1.8000000") (FixedText "2.2000000")].
Proof.
  destruct (liquidityPoolDeposit_price_band 3 sampleTxMaker
              {| accountId := "GALICE"; sequence := 7 |}
              (Keypair_fromSecret "SALICE") "dd7b1ab8" "200" "100"
              sampleWorld Networks_STANDALONE eq_refl)
    as ((tx & rest & Hlog & Hops) & _).
  exists tx, rest. split; [exact Hlog |].
  rewrite Hops. vm_compute. reflexivity.
Defined.

Lemma router_deadline_is_ten_hours_witness :
  getCurrentTimePlusOneHour sampleWorld = (Resolved 1700036000, sampleWorld)
  /\ 1700036000 = 1700000000 + 10 * 3600.
Proof.
  destruct (router_deadline_is_ten_hours 3 sampleTxMaker sampleWorld
              Networks_STANDALONE eq_refl) as (Hrun & Hsec & _).
  split; [exact Hrun | exact Hsec].
Defined.

Lemma buildTx_envelope_witness :
  exists tx,
    buildTx sampleTxMaker {| accountId := "GALICE"; sequence := 7 |}
      (Keypair_fromSecret "SALICE") [OpPayment "10" Native "GBOB"] sampleWorld
    = (Resolved tx, sampleWorld)
    /\ tx_fee tx = 100
    /\ tx_networkPassphrase tx = "Standalone Network ; February 2017"%string
    /\ maxTime (tx_timeBounds tx) = 1700000030
    /\ tx_signatures tx = [Keypair_fromSecret "SALICE"].
Proof.
  destruct (proj1 (buildTx_envelope sampleTxMaker
                     {| accountId := "GALICE"; sequence := 7 |}
                     (Keypair_fromSecret "SALICE") [OpPayment "10" Native "GBOB"]
                     sampleWorld) Networks_STANDALONE eq_refl)
    as (tx & Hrun & Hfee & Hpp & Htime & Hsig & _).
  exists tx. repeat split; assumption.
Defined.

Lemma facade_error_conversion_differs_witness :
  fst (addLiquiditySoroswap 3 failingTxMaker sampleAddLiquidity sampleWorld)
  = Resolved Undefined
  /\ fst (mintTokens 3 failingTxMaker sampleMint sampleWorld)
     = Resolved (ErrorObject "error" connectionRefused)
  /\ fst (payment 3 failingTxMaker samplePayment sampleWorld)
     = Rejected connectionRefused.
Proof.
  destruct (facade_error_conversion_differs 3 failingTxMaker sampleWorld
              connectionRefused Networks_STANDALONE eq_refl) as (Hadd & Hmint & Hpay).
  - intros pk. eexists. reflexivity.
  - intros tx. eexists. reflexivity.
  - reflexivity.
  - reflexivity.
  - split; [apply Hadd | split; [apply Hmint | apply Hpay]].
Defined.

Lemma fundAccount_outcomes_witness :
  fundAccount
    (faucetSays {| successful := false; detail := Some alreadyExists |})
    sampleTxMaker alice sampleWorld
  = (Resolved tt,
     logged sampleWorld
       [EvFetch "http://localhost:8000/friendbot?addr=GALICE";
        EvConsoleLog [LStr "Account already exists:"]]).
Proof.
  exact (proj1 (proj2
    (fundAccount_outcomes
       (faucetSays {| successful := false; detail := Some alreadyExists |})
       sampleTxMaker alice sampleWorld))
    _ _ eq_refl eq_refl eq_refl eq_refl).
Defined.

Lemma getRouterContractAddress_never_raises_witness :
  exists before first rest,
    routers = before ++ first :: rest
    /\ Async.network first = "testnet"%string
    /\ (forall r, In r before -> Async.network r <> "testnet"%string)
    /\ getRouterContractAddress sampleAxios "https://api.soroswap.finance" "testnet"
         sampleWorld
       = (Resolved (router_address first),
          logged sampleWorld
            [EvAxiosGet (routerEndpoint "https://api.soroswap.finance")]).
Proof.
  refine (proj1
    (getRouterContractAddress_never_raises sampleAxios
       "https://api.soroswap.finance" "testnet" sampleWorld)
    routers
    {| Async.network := "testnet"; router_id := "2"; router_address := "CTESTNET" |}
    eq_refl _ eq_refl).
  simpl. right. left. reflexivity.
Defined.

(* ===================================================================== *)
(** * Failures while polling *)
(* ===================================================================== *)

(** X2. A query that fails ends the poller: after [n] NOT_FOUND answers, a
    rejected [getTransaction] rejects [waitForConfirmation] with the same
    error, after [n] suspensions and with no further query. *)
Theorem waitForConfirmation_failure_not_retried (server : SorobanServer)
    (hash : string) (w : World) (n fuel : nat) (e : JsError) :
  (forall k, (k < n)%nat ->
     exists c,
       soroban_getTransaction server hash (queriesFor hash (log w) + k) = Ok c
       /\ status c = NOT_FOUND) ->
  soroban_getTransaction server hash (queriesFor hash (log w) + n) = Throw e ->
  (n < fuel)%nat ->
  waitForConfirmation fuel hash server w
  = (Rejected e,
     after w (1000 * Z.of_nat n) (pollRounds hash n ++ [EvGetTransaction hash]))
  /\ queriesFor hash (pollRounds hash n ++ [EvGetTransaction hash]) = S n.
Proof.
  intros Hbefore Hn Hfuel. split.
  - replace fuel with (n + S (fuel - S n))%nat by lia.
    rewrite waitForConfirmation_rounds.
    + rewrite waitForConfirmation_settles;
        rewrite queriesFor_after_rounds, Hn.
      * unfold logged, after. simpl. now rewrite <- app_assoc.
      * reflexivity.
    + intros k Hk. destruct (Hbefore k Hk) as (c & -> & Hc).
      now apply interim_ok.
  - rewrite queriesFor_app. simpl. rewrite String.eqb_refl.
    pose proof (queriesFor_after_rounds hash
                  {| now := 0; log := [] |} 0 n) as H.
    simpl in H. rewrite H. lia.
Qed.

Lemma waitForConfirmation_failure_not_retried_witness :
  waitForConfirmation 10 "9f2c" failsOnSecondQuery sampleWorld
  = (Rejected connectionRefused,
     after sampleWorld 1000
       [EvGetTransaction "9f2c"; EvSleep 1000; EvGetTransaction "9f2c"]).
Proof.
  refine (proj1 (waitForConfirmation_failure_not_retried failsOnSecondQuery
                   "9f2c" sampleWorld 1 10 connectionRefused _ eq_refl _)).
  - intros [| k] Hk; [exists notFound; split; reflexivity | lia].
  - lia.
Defined.

(* ===================================================================== *)
(** * hexToByte on any characters *)
(* ===================================================================== *)

Lemma ToUint8_range (v : option Z) : 0 <= ToUint8 v < 256.
Proof.
  destruct v as [n |]; simpl; [| lia].
  apply Z.mod_pos_bound. lia.
Qed.

(** A pair that starts with an unreadable character is stored as zero. *)
Lemma parseInt_unreadable (a b : ascii) :
  unreadable a = true ->
  parseInt (String a (String b EmptyString)) 16 = None.
Proof.
  destruct a as [[] [] [] [] [] [] [] []]; intros H;
    try discriminate H; reflexivity.
Qed.

Lemma map_pairs_unreadable (s : string) :
  Nat.even (String.length s) = true -> unreadablePairs s = true ->
  map (fun i => ToUint8 (parseInt (substr s (i * 2) 2) 16))
    (seq 0 (Nat.div (String.length s) 2))
  = repeat 0 (Nat.div (String.length s) 2).
Proof.
  intros He. pattern s. revert s He. apply string_pairs_ind.
  - reflexivity.
  - intros a b r IH Hall. simpl in Hall.
    apply andb_prop in Hall as [Ha Hall].
    rewrite (map_pairs a b r (fun p => ToUint8 (parseInt p 16))).
    rewrite (parseInt_unreadable a b Ha), (IH Hall).
    change (String.length (String a (String b r)))
      with (2 + String.length r)%nat.
    replace (2 + String.length r)%nat with (String.length r + 1 * 2)%nat by lia.
    rewrite Nat.div_add by lia.
    replace (Nat.div (String.length r) 2 + 1)%nat
      with (S (Nat.div (String.length r) 2)) by lia.
    reflexivity.
Qed.



(* ===================================================================== *)
(** * The price band on reserves that are zero or no numbers *)
(* ===================================================================== *)

(** X4. [liquidityPoolDeposit] divides without a guard. When
    [maxReserveB] reads as zero and [maxReserveA] as a positive number the
    price is infinite, the lower bound is written NaN and the upper bound
    Infinity (with the sign of the zero); when both read as zero, or one
    of them is no numeric literal, both bounds are written NaN. *)
Theorem price_band_unguarded (maxReserveA maxReserveB : string) :
  (forall m e sb,
      Number maxReserveA = S754_finite false m e ->
      Number maxReserveB = S754_zero sb ->
      exactPrice maxReserveA maxReserveB = S754_infinity sb
      /\ toFixed (minPrice maxReserveA maxReserveB) 7 = FixedText "NaN"
      /\ toFixed (maxPrice maxReserveA maxReserveB) 7
         = FixedText (if sb then "-Infinity" else "Infinity"))
  /\ (forall sa sb,
        Number maxReserveA = S754_zero sa ->
        Number maxReserveB = S754_zero sb ->
        toFixed (minPrice maxReserveA maxReserveB) 7 = FixedText "NaN"
        /\ toFixed (maxPrice maxReserveA maxReserveB) 7 = FixedText "NaN")
  /\ (Number maxReserveA = S754_nan \/ Number maxReserveB = S754_nan ->
      toFixed (minPrice maxReserveA maxReserveB) 7 = FixedText "NaN"
      /\ toFixed (maxPrice maxReserveA maxReserveB) 7 = FixedText "NaN").
Proof.
  unfold minPrice, maxPrice, exactPrice, f64_div, f64_mul, f64_sub, f64_add.
  split; [| split].
  - intros m e sb Ha Hb. rewrite Ha, Hb.
    destruct sb; vm_compute; repeat split.
  - intros sa sb Ha Hb. rewrite Ha, Hb. split; reflexivity.
  - intros [Ha | Hb].
    + rewrite Ha. split; reflexivity.
    + rewrite Hb.
      destruct (Number maxReserveA); split; reflexivity.
Qed.

Lemma price_band_unguarded_witness :
  exactPrice "1" "0" = S754_infinity false
  /\ toFixed (minPrice "1" "0") 7 = FixedText "NaN"
  /\ toFixed (maxPrice "1" "0") 7 = FixedText "Infinity".
Proof.
  refine (proj1 (price_band_unguarded "1" "0") 4503599627370496%positive (-52) false _ _);
    vm_compute; reflexivity.
Defined.

(* ===================================================================== *)
(** * buildTx of utils.ts *)
(* ===================================================================== *)

Lemma utils_buildTx_run (source : Account) (signer : Keypair)
    (ops : list Operation) (w : World) :
  Utils.buildTx source signer ops w
  = (Resolved (builtEnvelope Networks_STANDALONE (now w) source signer ops), w).
Proof.
  unfold Utils.buildTx, bind, Date_now, ret. simpl.
  rewrite fold_left_addOperation. reflexivity.
Qed.

(** X5. [buildTx] of [utils.ts] never throws and always signs for the
    standalone network. It gives the envelope of [TxMaker.buildTx] exactly
    when the client is configured for [standalone]; for [testnet] the two
    envelopes differ in their passphrase, and for any other network the
    method of the class throws where the helper still builds. *)
Theorem utils_buildTx_always_standalone (this : TxMaker) (source : Account)
    (signer : Keypair) (ops : list Operation) (w : World) :
  (exists tx,
      Utils.buildTx source signer ops w = (Resolved tx, w)
      /\ tx_networkPassphrase tx = Networks_STANDALONE
      /\ tx_operations tx = ops
      /\ tx_fee tx = BASE_FEE * Z.of_nat (List.length ops))
  /\ (network this = "standalone"%string ->
      Index.buildTx this source signer ops w = Utils.buildTx source signer ops w)
  /\ (network this = "testnet"%string ->
      exists tx,
        Index.buildTx this source signer ops w = (Resolved tx, w)
        /\ tx_networkPassphrase tx = Networks_TESTNET
        /\ Index.buildTx this source signer ops w
           <> Utils.buildTx source signer ops w)
  /\ (network this <> "standalone"%string -> network this <> "testnet"%string ->
      Index.buildTx this source signer ops w = (Rejected unsupportedNetwork, w)
      /\ Index.buildTx this source signer ops w
         <> Utils.buildTx source signer ops w).
Proof.
  rewrite utils_buildTx_run. repeat split.
  - eexists. repeat split.
  - intros Hn. apply buildTx_ok. now rewrite Hn.
  - intros Hn. eexists. split; [apply buildTx_ok; now rewrite Hn |].
    split; [reflexivity |].
    rewrite (buildTx_ok this source signer ops w Networks_TESTNET)
      by now rewrite Hn.
    intros H. injection H as H. discriminate H.
  - now apply buildTx_unsupported, getNetworkPassphrase_unsupported.
  - rewrite (buildTx_unsupported this source signer ops w unsupportedNetwork)
      by now apply getNetworkPassphrase_unsupported.
    discriminate.
Qed.

Lemma utils_buildTx_always_standalone_witness :
  exists tx,
    Index.buildTx testnetTxMaker {| accountId := "GALICE"; sequence := 7 |}
      (Keypair_fromSecret "SALICE") [OpPayment "10" Native "GBOB"] sampleWorld
    = (Resolved tx, sampleWorld)
    /\ tx_networkPassphrase tx = Networks_TESTNET
    /\ Index.buildTx testnetTxMaker {| accountId := "GALICE"; sequence := 7 |}
         (Keypair_fromSecret "SALICE") [OpPayment "10" Native "GBOB"] sampleWorld
       <> Utils.buildTx {| accountId := "GALICE"; sequence := 7 |}
            (Keypair_fromSecret "SALICE") [OpPayment "10" Native "GBOB"]
            sampleWorld.
Proof.
  exact (proj1 (proj2 (proj2
    (utils_buildTx_always_standalone testnetTxMaker
       {| accountId := "GALICE"; sequence := 7 |}
       (Keypair_fromSecret "SALICE") [OpPayment "10" Native "GBOB"] sampleWorld)))
    eq_refl).
Defined.

(* ===================================================================== *)
(** * getAssetBalance *)
(* ===================================================================== *)

(** The callback, by the line it is given. *)
Lemma balanceMatches_run (asset : Asset) (line : BalanceLine) (w : World) :
  balanceMatches asset line w
  = (Resolved (lineMatches asset line), logged w (poolSharesNotes [line])).
Proof.
  unfold logged, poolSharesNotes.
  destruct line as [b | b id | b code issuer], asset as [| code' issuer'];
    cbn; rewrite ?app_nil_r, ?andb_false_r; try reflexivity;
    now destruct w.
Qed.

Lemma poolSharesNotes_app (l1 l2 : list BalanceLine) :
  poolSharesNotes (l1 ++ l2) = poolSharesNotes l1 ++ poolSharesNotes l2.
Proof. unfold poolSharesNotes. now rewrite filter_app, map_app. Qed.

(** [find] on lines the callback refuses, then on one it accepts. *)
Lemma Array_find_balance (asset : Asset) (before rest : list BalanceLine)
    (w : World) :
  (forall l, In l before -> lineMatches asset l = false) ->
  Array_find (balanceMatches asset) (before ++ rest) w
  = Array_find (balanceMatches asset) rest (logged w (poolSharesNotes before)).
Proof.
  revert w. induction before as [| x before IH]; intros w Hb.
  - simpl. unfold poolSharesNotes, logged. simpl. rewrite app_nil_r.
    now destruct w.
  - simpl. rewrite (bind_resolved _ _ _ _ _ (balanceMatches_run asset x w)).
    rewrite (Hb x (or_introl eq_refl)).
    rewrite IH by (intros l Hl; apply Hb; now right).
    rewrite logged_logged.
    change (x :: before) with ([x] ++ before).
    now rewrite poolSharesNotes_app.
Qed.

Lemma lineMatches_not_pool (asset : Asset) (line : BalanceLine) :
  lineMatches asset line = true -> isPoolShares line = false.
Proof. now destruct line, asset. Qed.

(** X6. [getAssetBalance] returns the balance of the first line the asset
    matches: a native line for the native asset, a credit line with the
    same code and issuer for a credit asset. It notes on the console each
    line of pool shares it passes on the way, returns [undefined] when no
    line matches, never returns the balance of pool shares, and never
    takes a credit line whose code is XLM for the native asset. *)
Theorem getAssetBalance_first_match (account : AccountResponse) (asset : Asset)
    (w : World) :
  (forall before line rest,
      balances account = before ++ line :: rest ->
      (forall l, In l before -> lineMatches asset l = false) ->
      lineMatches asset line = true ->
      getAssetBalance account asset w
      = (Resolved (Some (balanceOf line)), logged w (poolSharesNotes before)))
  /\ ((forall l, In l (balances account) -> lineMatches asset l = false) ->
      getAssetBalance account asset w
      = (Resolved None, logged w (poolSharesNotes (balances account))))
  /\ (forall balance w',
        getAssetBalance account asset w = (Resolved (Some balance), w') ->
        exists line,
          In line (balances account)
          /\ balanceOf line = balance
          /\ lineMatches asset line = true
          /\ isPoolShares line = false)
  /\ (forall balance code issuer,
        lineMatches Native (BalanceCredit balance code issuer) = false).
Proof.
  assert (Hfound : forall before line rest,
    balances account = before ++ line :: rest ->
    (forall l, In l before -> lineMatches asset l = false) ->
    lineMatches asset line = true ->
    getAssetBalance account asset w
    = (Resolved (Some (balanceOf line)), logged w (poolSharesNotes before))).
  { intros before line rest Hsplit Hbefore Hline.
    assert (Hfind :
      Array_find (balanceMatches asset) (balances account) w
      = (Resolved (Some line), logged w (poolSharesNotes before))).
    { rewrite Hsplit.
      rewrite (Array_find_balance asset before (line :: rest) w Hbefore). simpl.
      rewrite (bind_resolved _ _ _ _ _ (balanceMatches_run asset line _)).
      rewrite Hline, logged_logged. unfold ret. f_equal. f_equal.
      unfold poolSharesNotes at 2. simpl.
      rewrite (lineMatches_not_pool asset line Hline). simpl.
      now rewrite app_nil_r. }
    unfold getAssetBalance. now rewrite (bind_resolved _ _ _ _ _ Hfind). }
  assert (Hnone :
    (forall l, In l (balances account) -> lineMatches asset l = false) ->
    getAssetBalance account asset w
    = (Resolved None, logged w (poolSharesNotes (balances account)))).
  { intros Hall.
    assert (Hfind :
      Array_find (balanceMatches asset) (balances account) w
      = (Resolved None, logged w (poolSharesNotes (balances account)))).
    { rewrite <- (app_nil_r (balances account)) at 1.
      now rewrite (Array_find_balance asset (balances account) [] w Hall). }
    unfold getAssetBalance. now rewrite (bind_resolved _ _ _ _ _ Hfind). }
  split; [exact Hfound | split; [exact Hnone | split]].
  - intros balance w' Hrun.
    destruct (find (lineMatches asset) (balances account)) as [line |] eqn:Hf.
    + destruct (find_first_match _ _ _ Hf) as (before & rest & Hsplit & Hline & Hb).
      rewrite (Hfound before line rest Hsplit Hb Hline) in Hrun.
      injection Hrun as Hbal _. exists line. repeat split.
      * rewrite Hsplit. apply in_or_app. right. now left.
      * exact Hbal.
      * exact Hline.
      * now apply (lineMatches_not_pool asset).
    + rewrite Hnone in Hrun; [discriminate |].
      intros l Hl. apply (find_none _ _ Hf l Hl).
  - reflexivity.
Qed.

Lemma getAssetBalance_first_match_witness :
  getAssetBalance sampleBalances Native sampleWorld
  = (Resolved (Some "99.9999900"%string),
     logged sampleWorld
       [EvConsoleLog [LStr "Liquidity pool shares not supported yet"]]).
Proof.
  refine (proj1 (getAssetBalance_first_match sampleBalances Native sampleWorld)
            [BalancePoolShares "3.0000000" "dd7b1ab8";
             BalanceCredit "12.5000000" "XLM" "GFAKE";
             BalanceCredit "7.0000000" "USDC" "GISSUER"]
            (BalanceNative "99.9999900") [] eq_refl _ eq_refl).
  intros l [<- | [<- | [<- | []]]]; reflexivity.
Defined.

(* ===================================================================== *)
(** * The methods of the facade, step by step *)
(* ===================================================================== *)

(** What a [try] that submits and polls can end in, when its [catch]
    always resolves to [fallback e]. *)
Lemma try_poll_outcome (call : Js SubmitResponse) (server : SorobanServer)
    (fuel : nat) (handler : JsError -> Js FacadeResult)
    (fallback : JsError -> FacadeResult) (w : World) :
  (forall e w', fst (handler e w') = Resolved (fallback e)) ->
  (exists confirmation,
      fst (tryCatch
             (txRes <- call ;;
              confirmation <- waitForConfirmation fuel (hash txRes) server ;;
              ret (Confirmation confirmation)) handler w)
      = Resolved (Confirmation confirmation)
      /\ status confirmation <> NOT_FOUND)
  \/ (exists e,
        fst (tryCatch
               (txRes <- call ;;
                confirmation <- waitForConfirmation fuel (hash txRes) server ;;
                ret (Confirmation confirmation)) handler w)
        = Resolved (fallback e))
  \/ fst (tryCatch
            (txRes <- call ;;
             confirmation <- waitForConfirmation fuel (hash txRes) server ;;
             ret (Confirmation confirmation)) handler w)
     = Pending.
Proof.
  intros Hh. unfold tryCatch.
  destruct (call w) as [[txRes | e |] w1] eqn:Hcall.
  - rewrite (bind_resolved _ _ _ _ _ Hcall).
    destruct (waitForConfirmation fuel (hash txRes) server w1)
      as [[confirmation | e |] w2] eqn:Hwait.
    + rewrite (bind_resolved _ _ _ _ _ Hwait). left. exists confirmation.
      split; [reflexivity |].
      eapply waitForConfirmation_never_interim; exact Hwait.
    + rewrite (bind_rejected _ _ _ _ _ Hwait). right. left. exists e. apply Hh.
    + rewrite (bind_pending _ _ _ _ Hwait). right. right. reflexivity.
  - rewrite (bind_rejected _ _ _ _ _ Hcall). right. left. exists e. apply Hh.
  - rewrite (bind_pending _ _ _ _ Hcall). right. right. reflexivity.
Qed.

(** The log of a [try] that starts with a call on a server. *)
Lemma try_call_logs {A B} (ev : Event) (r : Result A) (k : A -> Js B)
    (handler : JsError -> Js B) (w : World) :
  (forall a, appendOnly (k a)) -> (forall e, appendOnly (handler e)) ->
  exists rest,
    log (snd (tryCatch (a <- (perform ev ;; fromResult r) ;; k a) handler w))
    = log w ++ ev :: rest.
Proof.
  intros Hk Hh. unfold tryCatch. destruct r as [a | e].
  - rewrite (bind_resolved _ _ _ _ _ (call_ok ev (Ok a) a w eq_refl)).
    destruct (Hk a (logged w [ev])) as [rest Hrest].
    destruct (k a (logged w [ev])) as [[b | e |] w'] eqn:Hrun; simpl in Hrest.
    + exists rest. simpl. now rewrite Hrest, <- app_assoc.
    + destruct (Hh e w') as [rest' Hrest'].
      exists (rest ++ rest'). rewrite Hrest', Hrest, <- !app_assoc. reflexivity.
    + exists rest. simpl. now rewrite Hrest, <- app_assoc.
  - rewrite (bind_rejected _ _ _ _ _ (call_throw ev (Throw e) e w eq_refl)).
    destruct (Hh e (logged w [ev])) as [rest Hrest].
    exists rest. rewrite Hrest. simpl. now rewrite <- app_assoc.
Qed.




(** The three router methods from the fetched account on. *)
Lemma router_tail_outcome (fuel : nat) (this : TxMaker) (account : Account)
    (sourceKeypair : Keypair) (op : Operation) (publicKey : string) (w : World) :
  routerOutcome this publicKey
    (fst
       ((transaction <- Index.buildTx this account sourceKeypair [op] ;;
         preparedTransaction <- prepareTransaction (sorobanServer this) transaction ;;
         tryCatch
           (txRes <- sendTransaction (sorobanServer this)
                       (sign preparedTransaction sourceKeypair) ;;
            confirmation <- waitForConfirmation fuel (hash txRes)
                              (sorobanServer this) ;;
            ret (Confirmation confirmation))
           (fun error =>
              showErrorResultCodes error ;;
              console_error [LError error] ;;
              ret Undefined)) w)).
Proof.
  destruct (getNetworkPassphrase (network this)) as [passphrase | e] eqn:Hpp.
  - rewrite (bind_resolved _ _ _ _ _ (buildTx_ok _ _ _ _ _ _ Hpp)).
    unfold prepareTransaction.
    destruct (soroban_prepareTransaction (sorobanServer this)
                (builtEnvelope passphrase (now w) account sourceKeypair [op]))
      as [prepared | e] eqn:Hprep.
    + rewrite (bind_resolved _ _ _ _ _ (call_ok _ _ _ _ eq_refl)).
      match goal with
      | |- context [tryCatch (bind ?call ?k) ?h ?w1] =>
          destruct (try_poll_outcome call (sorobanServer this) fuel h
                      (fun _ => Undefined) w1) as [(c & -> & Hc) | [(e & ->) | ->]]
      end; simpl; auto.
      intros e w'. apply router_catch_undefined.
    + rewrite (bind_rejected _ _ _ _ _ (call_throw _ _ _ _ eq_refl)).
      simpl. right. right. eexists. exact Hprep.
  - rewrite (bind_rejected _ _ _ _ _ (buildTx_unsupported _ _ _ _ _ _ Hpp)).
    simpl. right. left. exact Hpp.
Qed.


(* ===================================================================== *)
(** * No second submission *)
(* ===================================================================== *)

Lemma submissions_app (l1 l2 : list Event) :
  submissions (l1 ++ l2) = (submissions l1 + submissions l2)%nat.
Proof. unfold submissions. now rewrite filter_app, length_app. Qed.

Lemma submitsAtMost_bind {A B} (n m : nat) (c : Js A) (k : A -> Js B) :
  submitsAtMost n c -> (forall a, submitsAtMost m (k a)) ->
  submitsAtMost (n + m) (bind c k).
Proof.
  intros Hc Hk w. unfold bind. destruct (Hc w) as (l1 & H1 & Hn).
  destruct (c w) as [[a | e |] w']; simpl in *.
  - destruct (Hk a w') as (l2 & H2 & Hm). exists (l1 ++ l2). split.
    + now rewrite H2, H1, app_assoc.
    + rewrite submissions_app. lia.
  - exists l1. split; [assumption | lia].
  - exists l1. split; [assumption | lia].
Qed.

Lemma submitsAtMost_tryCatch {A} (n m : nat) (c : Js A) (h : JsError -> Js A) :
  submitsAtMost n c -> (forall e, submitsAtMost m (h e)) ->
  submitsAtMost (n + m) (tryCatch c h).
Proof.
  intros Hc Hh w. unfold tryCatch. destruct (Hc w) as (l1 & H1 & Hn).
  destruct (c w) as [[a | e |] w']; simpl in *.
  - exists l1. split; [assumption | lia].
  - destruct (Hh e w') as (l2 & H2 & Hm). exists (l1 ++ l2). split.
    + now rewrite H2, H1, app_assoc.
    + rewrite submissions_app. lia.
  - exists l1. split; [assumption | lia].
Qed.

(** A computation that hands no envelope to a server. *)
Lemma quiet_bind {A B} (c : Js A) (k : A -> Js B) :
  submitsAtMost 0 c -> (forall a, submitsAtMost 0 (k a)) ->
  submitsAtMost 0 (bind c k).
Proof. apply (submitsAtMost_bind 0 0). Qed.

Lemma quiet_tryCatch {A} (c : Js A) (h : JsError -> Js A) :
  submitsAtMost 0 c -> (forall e, submitsAtMost 0 (h e)) ->
  submitsAtMost 0 (tryCatch c h).
Proof. apply (submitsAtMost_tryCatch 0 0). Qed.

Lemma quiet_unchanged {A} (c : Js A) :
  (forall w, snd (c w) = w) -> submitsAtMost 0 c.
Proof.
  intros H w. exists []. rewrite H, app_nil_r. split; [reflexivity | apply le_n].
Qed.

Lemma quiet_ret {A} (a : A) : submitsAtMost 0 (ret a).
Proof. now apply quiet_unchanged. Qed.

Lemma quiet_throw {A} (e : JsError) : submitsAtMost 0 (@throw A e).
Proof. now apply quiet_unchanged. Qed.

Lemma quiet_pending {A} : submitsAtMost 0 (@pending A).
Proof. now apply quiet_unchanged. Qed.

Lemma quiet_fromResult {A} (r : Result A) : submitsAtMost 0 (fromResult r).
Proof. destruct r; now apply quiet_unchanged. Qed.

Lemma quiet_Date_now : submitsAtMost 0 Date_now.
Proof. now apply quiet_unchanged. Qed.

Lemma quiet_buildTx (this : TxMaker) (source : Account) (signer : Keypair)
    (ops : list Operation) :
  submitsAtMost 0 (Index.buildTx this source signer ops).
Proof. apply quiet_unchanged. intros w. apply buildTx_pure. Qed.

Lemma quiet_getCurrentTimePlusOneHour : submitsAtMost 0 getCurrentTimePlusOneHour.
Proof. now apply quiet_unchanged. Qed.

Lemma quiet_perform (ev : Event) :
  isSubmission ev = false -> submitsAtMost 0 (perform ev).
Proof.
  intros H w. exists [ev]. split; [reflexivity |].
  unfold submissions. simpl. rewrite H. apply le_n.
Qed.

Lemma quiet_sleep (ms : Z) : submitsAtMost 0 (sleep ms).
Proof. intros w. exists [EvSleep ms]. split; [reflexivity | apply le_n]. Qed.

#[local] Hint Resolve quiet_ret quiet_throw quiet_pending quiet_fromResult
  quiet_Date_now quiet_buildTx quiet_getCurrentTimePlusOneHour quiet_sleep
  : quiet.
#[local] Hint Extern 1 (submitsAtMost 0 (perform _)) =>
  apply quiet_perform; reflexivity : quiet.
#[local] Hint Extern 2 (submitsAtMost 0 (bind _ _)) =>
  apply quiet_bind; [| intro] : quiet.
#[local] Hint Extern 2 (submitsAtMost 0 (tryCatch _ _)) =>
  apply quiet_tryCatch; [| intro] : quiet.
#[local] Hint Extern 3 (submitsAtMost 0 (if ?b then _ else _)) =>
  destruct b : quiet.
#[local] Hint Extern 3 (submitsAtMost 0 (match ?x with _ => _ end)) =>
  destruct x : quiet.

Lemma quiet_getTransaction (server : SorobanServer) (hash : string) :
  submitsAtMost 0 (getTransaction server hash).
Proof.
  intros w. unfold getTransaction.
  assert (H : submitsAtMost 0
    (perform (EvGetTransaction hash) ;;
     fromResult (soroban_getTransaction server hash (queriesFor hash (log w)))))
    by quiet.
  apply H.
Qed.

Lemma quiet_waitForConfirmation (fuel : nat) (hash : string)
    (server : SorobanServer) :
  submitsAtMost 0 (waitForConfirmation fuel hash server).
Proof.
  induction fuel as [| fuel IH]; simpl; [quiet |].
  apply quiet_bind; [apply quiet_getTransaction |].
  intros confirmation. destruct (negb _); quiet.
Qed.

Lemma quiet_showErrorResultCodes (error : JsError) :
  submitsAtMost 0 (showErrorResultCodes error).
Proof.
  unfold showErrorResultCodes.
  destruct (isAxiosError error), (response error) as [apiError |];
    try destruct (result_codes apiError); quiet.
Qed.

#[local] Hint Resolve quiet_waitForConfirmation quiet_showErrorResultCodes
  : quiet.

Lemma once_submitTransaction (server : HorizonServer) (tx : Transaction) :
  submitsAtMost 1 (submitTransaction server tx).
Proof.
  intros w. exists [EvSubmitTransaction tx]. split; [| apply le_n].
  unfold submitTransaction, bind, perform.
  now destruct (horizon_submitTransaction server tx).
Qed.

Lemma once_sendTransaction (server : SorobanServer) (tx : Transaction) :
  submitsAtMost 1 (sendTransaction server tx).
Proof.
  intros w. exists [EvSendTransaction tx]. split; [| apply le_n].
  unfold sendTransaction, bind, perform.
  now destruct (soroban_sendTransaction server tx).
Qed.

(** A [try] that submits once, polls, and whose [catch] submits nothing. *)
Lemma once_try {A} (call : Js SubmitResponse) (k : SubmitResponse -> Js A)
    (handler : JsError -> Js A) :
  submitsAtMost 1 call -> (forall r, submitsAtMost 0 (k r)) ->
  (forall e, submitsAtMost 0 (handler e)) ->
  submitsAtMost 1 (tryCatch (bind call k) handler).
Proof.
  intros Hcall Hk Hh.
  apply (submitsAtMost_tryCatch 1 0); [| exact Hh].
  apply (submitsAtMost_bind 1 0); assumption.
Qed.

(** What comes before the [try] submits nothing. *)
Lemma once_after {A B} (c : Js A) (k : A -> Js B) :
  submitsAtMost 0 c -> (forall a, submitsAtMost 1 (k a)) ->
  submitsAtMost 1 (bind c k).
Proof. apply (submitsAtMost_bind 0 1). Qed.

(** X11. No method of the facade submits twice: in one call, at most one
    envelope is handed to [submitTransaction] or [sendTransaction],
    whatever the servers answer and however long the polling; a failed
    submission is not repeated. *)
Theorem facade_submits_at_most_once (fuel : nat) (this : TxMaker) :
  (forall args, submitsAtMost 1 (payment fuel this args))
  /\ (forall source signer poolId maxReserveA maxReserveB,
        submitsAtMost 1
          (liquidityPoolDeposit fuel this source signer poolId
             maxReserveA maxReserveB))
  /\ (forall args, submitsAtMost 1 (liquidityPoolWithdraw fuel this args))
  /\ (forall args, submitsAtMost 1 (mintTokens fuel this args))
  /\ (forall args, submitsAtMost 1 (addLiquiditySoroswap fuel this args))
  /\ (forall args, submitsAtMost 1 (removeLiquiditySoroswap fuel this args))
  /\ (forall args,
        submitsAtMost 1 (swapExactTokensForTokensSoroswap fuel this args)).
Proof.
  repeat split; intros.
  - unfold payment.
    apply once_after; [quiet | intro].
    apply once_after; [quiet | intro].
    apply once_try; [apply once_submitTransaction | intro; quiet | intro; quiet].
  - unfold liquidityPoolDeposit.
    apply (submitsAtMost_tryCatch 1 0); [| intro; quiet].
    apply once_after; [quiet | intro].
    apply (submitsAtMost_bind 1 0);
      [apply once_submitTransaction | intro; quiet].
  - unfold liquidityPoolWithdraw.
    apply once_after; [quiet | intro].
    apply once_after; [quiet | intro].
    apply once_try; [apply once_submitTransaction | intro; quiet | intro; quiet].
  - unfold mintTokens.
    apply once_after; [quiet | intro].
    apply once_after; [quiet | intro].
    apply once_after; [quiet | intro].
    apply once_try; [apply once_sendTransaction | intro; quiet | intro; quiet].
  - unfold addLiquiditySoroswap.
    apply once_after; [quiet | intro].
    apply once_after; [quiet | intro].
    apply once_after; [quiet | intro].
    apply once_after; [quiet | intro].
    apply once_try; [apply once_sendTransaction | intro; quiet | intro; quiet].
  - unfold removeLiquiditySoroswap.
    apply once_after; [quiet | intro].
    apply once_after; [quiet | intro].
    apply once_after; [quiet | intro].
    apply once_after; [quiet | intro].
    apply once_try; [apply once_sendTransaction | intro; quiet | intro; quiet].
  - unfold swapExactTokensForTokensSoroswap.
    apply once_after; [quiet | intro].
    apply once_after; [quiet | intro].
    apply once_after; [quiet | intro].
    apply once_after; [quiet | intro].
    apply once_try; [apply once_sendTransaction | intro; quiet | intro; quiet].
Qed.

(* ===================================================================== *)
(** * The one request of fundAccount *)
(* ===================================================================== *)

Lemma encodeURIComponent_unreserved (s : string) :
  allUnreserved s = true -> encodeURIComponent s = s.
Proof.
  induction s as [| c s IH]; simpl; [reflexivity |].
  intros H. apply andb_prop in H as [Hc Hs].
  now rewrite Hc, (IH Hs).
Qed.

Lemma showErrorResultCodes_console (error : JsError) (w : World) :
  exists evs,
    showErrorResultCodes error w = (Resolved tt, logged w evs)
    /\ forallb isConsole evs = true
    /\ (1 <= List.length evs <= 2)%nat.
Proof.
  unfold showErrorResultCodes.
  destruct (isAxiosError error), (response error) as [apiError |];
    try destruct (result_codes apiError); eexists;
    (split; [unfold bind, console_log, console_error, perform, logged; simpl;
             rewrite <- ?app_assoc; reflexivity
            | split; [reflexivity | simpl; lia]]).
Qed.

(** X12. [fundAccount] makes exactly one request and nothing else on the
    network: its effects are one [fetch] of the faucet URL followed by one
    to three lines on the console, and it never asks again after a
    failure. For a public key written with characters that
    [encodeURIComponent] leaves alone (letters, digits and the marks
    - _ . ! ~ * ' ( )), the URL is the faucet URI followed by the key as
    it is. *)
Theorem fundAccount_single_request (fetch : Fetch) (this : TxMaker)
    (account : TestAccount) (w : World) :
  (exists evs,
      fundAccount fetch this account w
      = (Resolved tt, logged w (EvFetch (faucetURL this account) :: evs))
      /\ forallb isConsole evs = true
      /\ (1 <= List.length evs <= 3)%nat)
  /\ (allUnreserved (publicKey account) = true ->
      faucetURL this account = (friendbotURI this ++ publicKey account)%string).
Proof.
  split.
  - unfold fundAccount, tryCatch, fetch_. fold (faucetURL this account).
    assert (Hcaught : forall e,
      exists evs,
        (console_error [LStr "ERROR!"; LError e] ;; showErrorResultCodes e)
          (logged w [EvFetch (faucetURL this account)])
        = (Resolved tt, logged w (EvFetch (faucetURL this account) :: evs))
        /\ forallb isConsole evs = true
        /\ (1 <= List.length evs <= 3)%nat).
    { intros e.
      destruct (showErrorResultCodes_console e
                  (logged w [EvFetch (faucetURL this account);
                             EvConsoleError [LStr "ERROR!"; LError e]]))
        as (evs & Hrun & Hcon & Hlen).
      exists (EvConsoleError [LStr "ERROR!"; LError e] :: evs). repeat split.
      - unfold bind, console_error, perform. unfold logged at 1. simpl.
        rewrite <- app_assoc. simpl.
        fold (logged w [EvFetch (faucetURL this account);
                        EvConsoleError [LStr "ERROR!"; LError e]]).
        rewrite Hrun, logged_logged. reflexivity.
      - simpl. exact Hcon.
      - simpl. lia.
      - simpl. lia. }
    destruct (fetch (faucetURL this account)) as [response | e].
    + rewrite (bind_resolved _ _ _ _ _ (call_ok _ _ _ _ eq_refl)).
      destruct (json response) as [body | e]; [| apply Hcaught].
      cbv [fromResult bind ret].
      destruct (successful body);
        [eexists; split; [js_run; reflexivity | split; [reflexivity | simpl; lia]] |].
      destruct (detail body) as [d |];
        [| eexists; split; [js_run; reflexivity | split; [reflexivity | simpl; lia]]].
      destruct (String.eqb d alreadyExists);
        eexists; (split; [js_run; reflexivity | split; [reflexivity | simpl; lia]]).
    + rewrite (bind_rejected _ _ _ _ _ (call_throw _ _ _ _ eq_refl)).
      apply Hcaught.
  - intros H. unfold faucetURL. now rewrite encodeURIComponent_unreserved.
Qed.

Lemma fundAccount_single_request_witness :
  faucetURL sampleTxMaker alice
  = "http://localhost:8000/friendbot?addr=GALICE"%string.
Proof.
  exact (proj2 (fundAccount_single_request (faucetSays
                  {| successful := true; detail := None |})
                  sampleTxMaker alice sampleWorld) eq_refl).
Defined.

(* ===================================================================== *)
(** * More concrete runs *)
(* ===================================================================== *)




(* ===================================================================== *)
(** * What is polled *)
(* ===================================================================== *)

Lemma polledHashes_app (l1 l2 : list Event) :
  polledHashes (l1 ++ l2) = polledHashes l1 ++ polledHashes l2.
Proof.
  induction l1 as [| ev l1 IH]; simpl; [reflexivity |].
  destruct ev; simpl; now rewrite IH.
Qed.

(** The continuation may rely on the value having come out of [c]. *)
Lemma pollsOnly_bind_from {A B} (P : string -> Prop) (c : Js A) (k : A -> Js B) :
  pollsOnly P c ->
  (forall a, (exists w w', c w = (Resolved a, w')) -> pollsOnly P (k a)) ->
  pollsOnly P (bind c k).
Proof.
  intros Hc Hk w. unfold bind. destruct (Hc w) as (l1 & H1 & HP1).
  destruct (c w) as [[a | e |] w'] eqn:Hrun; simpl in *.
  - destruct (Hk a (ex_intro _ w (ex_intro _ w' Hrun)) w') as (l2 & H2 & HP2).
    exists (l1 ++ l2). split.
    + now rewrite H2, H1, app_assoc.
    + intros h Hh. rewrite polledHashes_app in Hh.
      apply in_app_or in Hh as [Hh | Hh]; auto.
  - exists l1. split; assumption.
  - exists l1. split; assumption.
Qed.

Lemma pollsOnly_bind {A B} (P : string -> Prop) (c : Js A) (k : A -> Js B) :
  pollsOnly P c -> (forall a, pollsOnly P (k a)) -> pollsOnly P (bind c k).
Proof. intros Hc Hk. apply pollsOnly_bind_from; auto. Qed.

Lemma pollsOnly_tryCatch {A} (P : string -> Prop) (c : Js A)
    (h : JsError -> Js A) :
  pollsOnly P c -> (forall e, pollsOnly P (h e)) -> pollsOnly P (tryCatch c h).
Proof.
  intros Hc Hh w. unfold tryCatch. destruct (Hc w) as (l1 & H1 & HP1).
  destruct (c w) as [[a | e |] w']; simpl in *.
  - exists l1. split; assumption.
  - destruct (Hh e w') as (l2 & H2 & HP2). exists (l1 ++ l2). split.
    + now rewrite H2, H1, app_assoc.
    + intros x Hx. rewrite polledHashes_app in Hx.
      apply in_app_or in Hx as [Hx | Hx]; auto.
  - exists l1. split; assumption.
Qed.

Lemma pollsOnly_unchanged {A} (P : string -> Prop) (c : Js A) :
  (forall w, snd (c w) = w) -> pollsOnly P c.
Proof.
  intros H w. exists []. rewrite H, app_nil_r. split; [reflexivity |].
  intros h [].
Qed.

Lemma pollsOnly_ret {A} (P : string -> Prop) (a : A) : pollsOnly P (ret a).
Proof. now apply pollsOnly_unchanged. Qed.

Lemma pollsOnly_throw {A} (P : string -> Prop) (e : JsError) :
  pollsOnly P (@throw A e).
Proof. now apply pollsOnly_unchanged. Qed.

Lemma pollsOnly_pending {A} (P : string -> Prop) : pollsOnly P (@pending A).
Proof. now apply pollsOnly_unchanged. Qed.

Lemma pollsOnly_fromResult {A} (P : string -> Prop) (r : Result A) :
  pollsOnly P (fromResult r).
Proof. destruct r; now apply pollsOnly_unchanged. Qed.

Lemma pollsOnly_buildTx (P : string -> Prop) (this : TxMaker) (source : Account)
    (signer : Keypair) (ops : list Operation) :
  pollsOnly P (Index.buildTx this source signer ops).
Proof. apply pollsOnly_unchanged. intros w. apply buildTx_pure. Qed.

Lemma pollsOnly_getCurrentTimePlusOneHour (P : string -> Prop) :
  pollsOnly P getCurrentTimePlusOneHour.
Proof. now apply pollsOnly_unchanged. Qed.

Lemma pollsOnly_perform (P : string -> Prop) (ev : Event) :
  polledHashes [ev] = [] -> pollsOnly P (perform ev).
Proof.
  intros H w. exists [ev]. split; [reflexivity |]. rewrite H. intros h [].
Qed.

Lemma pollsOnly_sleep (P : string -> Prop) (ms : Z) : pollsOnly P (sleep ms).
Proof. intros w. exists [EvSleep ms]. split; [reflexivity | intros h []]. Qed.

#[local] Hint Resolve pollsOnly_ret pollsOnly_throw pollsOnly_pending
  pollsOnly_fromResult pollsOnly_buildTx pollsOnly_getCurrentTimePlusOneHour
  pollsOnly_sleep : polls.
#[local] Hint Extern 1 (pollsOnly _ (perform _)) =>
  apply pollsOnly_perform; reflexivity : polls.
#[local] Hint Extern 2 (pollsOnly _ (bind _ _)) =>
  apply pollsOnly_bind; [| intro] : polls.
#[local] Hint Extern 2 (pollsOnly _ (tryCatch _ _)) =>
  apply pollsOnly_tryCatch; [| intro] : polls.
#[local] Hint Extern 3 (pollsOnly _ (if ?b then _ else _)) => destruct b : polls.
#[local] Hint Extern 3 (pollsOnly _ (match ?x with _ => _ end)) =>
  destruct x : polls.

Lemma pollsOnly_getTransaction (P : string -> Prop) (server : SorobanServer)
    (h : string) :
  P h -> pollsOnly P (getTransaction server h).
Proof.
  intros HP w. exists [EvGetTransaction h]. split.
  - rewrite getTransaction_run. reflexivity.
  - intros x [<- | []]. exact HP.
Qed.

Lemma pollsOnly_waitForConfirmation (P : string -> Prop) (fuel : nat)
    (h : string) (server : SorobanServer) :
  P h -> pollsOnly P (waitForConfirmation fuel h server).
Proof.
  intros HP. induction fuel as [| fuel IH]; simpl; [polls |].
  apply pollsOnly_bind; [now apply pollsOnly_getTransaction |].
  intros confirmation. destruct (negb _); polls.
Qed.

Lemma pollsOnly_showErrorResultCodes (P : string -> Prop) (error : JsError) :
  pollsOnly P (showErrorResultCodes error).
Proof.
  unfold showErrorResultCodes.
  destruct (isAxiosError error), (response error) as [apiError |];
    try destruct (result_codes apiError); polls.
Qed.

#[local] Hint Resolve pollsOnly_showErrorResultCodes : polls.

(** The answer a call resolved to is the answer of the server. *)
Lemma call_resolved {A} (ev : Event) (r : Result A) (a : A) (w w' : World) :
  (perform ev ;; fromResult r) w = (Resolved a, w') -> r = Ok a.
Proof.
  unfold bind, perform, fromResult, ret, throw.
  destruct r as [a' | e]; intros H; inversion H; reflexivity.
Qed.

(** A [try] that submits and then polls the hash it was given. *)
Lemma pollsOnly_try_submit (this : TxMaker) (fuel : nat) (tx : Transaction)
    (handler : JsError -> Js FacadeResult) :
  (forall e, pollsOnly (acceptedHash this) (handler e)) ->
  pollsOnly (acceptedHash this)
    (tryCatch
       (txRes <- submitTransaction (horizonServer this) tx ;;
        confirmation <- waitForConfirmation fuel (hash txRes)
                          (sorobanServer this) ;;
        ret (Confirmation confirmation)) handler).
Proof.
  intros Hh. apply pollsOnly_tryCatch; [| exact Hh].
  apply pollsOnly_bind_from; [unfold submitTransaction; polls |].
  intros r (w & w' & Hrun). apply call_resolved in Hrun.
  apply pollsOnly_bind; [| intro; polls].
  apply pollsOnly_waitForConfirmation. exists tx, r. split; [now left | reflexivity].
Qed.

Lemma pollsOnly_try_send (this : TxMaker) (fuel : nat) (tx : Transaction)
    (handler : JsError -> Js FacadeResult) :
  (forall e, pollsOnly (acceptedHash this) (handler e)) ->
  pollsOnly (acceptedHash this)
    (tryCatch
       (txRes <- sendTransaction (sorobanServer this) tx ;;
        confirmation <- waitForConfirmation fuel (hash txRes)
                          (sorobanServer this) ;;
        ret (Confirmation confirmation)) handler).
Proof.
  intros Hh. apply pollsOnly_tryCatch; [| exact Hh].
  apply pollsOnly_bind_from; [unfold sendTransaction; polls |].
  intros r (w & w' & Hrun). apply call_resolved in Hrun.
  apply pollsOnly_bind; [| intro; polls].
  apply pollsOnly_waitForConfirmation. exists tx, r. split; [now right | reflexivity].
Qed.

